(** * PM-Assistant: the Snowflake saved-query server and its stdio harness

    A shallow embedding of [snowflake-mcp/server.py] and [run_mcp_tool.py],
    and the properties of the design document checked against it.

    Layout: [Py] holds the fragment of the Python runtime the two programs
    rely on (values, [str.strip], [int()], [repr()], exceptions, a state and
    exception monad with [try]/[except] and [with]); [Server] embeds
    [server.py]; [Harness] embeds the response reader and the request writer
    of [run_mcp_tool.py], and [Main] the request its [main] sends;
    [Scenarios] holds concrete collaborators and environments. The theorems
    follow the definitions. *)

From Stdlib Require Import ZArith Ascii String List Bool Lia Sorted Permutation.
From Stdlib Require Import DecimalString.
From stdpp Require Import gmap strings.
From Equations Require Import Equations.

Local Open Scope Z_scope.
#[local] Arguments String.append : simpl nomatch.
Set Warnings "-register-all".

(* ===================================================================== *)
(** * The Python runtime fragment                                          *)
(* ===================================================================== *)

Module Py.

(** ** Text

    A [str] is a [string] read one character per code point, so the model
    covers the texts whose code points are below 256; [bytes] is a [string]
    read one character per byte. *)

Definition code (c : ascii) : nat := nat_of_ascii c.

(** [str.isspace] on one character, as [str.strip()] uses it: TAB..CR,
    FS..US, SPACE, NEL and NBSP are the white space below 256. *)
Definition is_space (c : ascii) : bool :=
  let n := code c in
  ((9 <=? n) && (n <=? 13) || (28 <=? n) && (n <=? 32)
   || (n =? 133) || (n =? 160))%nat.

(** The white space [int()] skips around a literal: as above, without
    FS..US. *)
Definition is_int_space (c : ascii) : bool :=
  let n := code c in
  ((9 <=? n) && (n <=? 13) || (n =? 32) || (n =? 133) || (n =? 160))%nat.

Fixpoint lstrip_by (sp : ascii -> bool) (s : string) : string :=
  match s with
  | EmptyString => EmptyString
  | String c r => if sp c then lstrip_by sp r else s
  end.

Fixpoint rstrip_by (sp : ascii -> bool) (s : string) : string :=
  match s with
  | EmptyString => EmptyString
  | String c r =>
      match rstrip_by sp r with
      | EmptyString => if sp c then EmptyString else String c EmptyString
      | r' => String c r'
      end
  end.

Definition strip_by (sp : ascii -> bool) (s : string) : string :=
  rstrip_by sp (lstrip_by sp s).

(** [s.strip()] *)
Definition strip (s : string) : string := strip_by is_space s.

(** [c in s] for a one-character [c]. *)
Fixpoint contains_char (c : ascii) (s : string) : bool :=
  match s with
  | EmptyString => false
  | String d r => Ascii.eqb c d || contains_char c r
  end.

Definition is_empty (s : string) : bool :=
  match s with EmptyString => true | _ => false end.




Fixpoint last_char (s : string) : option ascii :=
  match s with
  | EmptyString => None
  | String c EmptyString => Some c
  | String _ r => last_char r
  end.

(** ** [repr] of a [str] *)

Definition squote : ascii := "'".
Definition dquote : ascii := ascii_of_nat 34.
Definition backslash : ascii := "\".

Definition hex_digit (n : nat) : ascii :=
  ascii_of_nat (if (n <? 10)%nat then 48 + n else 87 + n).

(** [str.isprintable] below 256: the controls, DEL..0x9F, NBSP and the soft
    hyphen are not printable. *)
Definition is_printable (c : ascii) : bool :=
  let n := code c in
  ((32 <=? n) && (n <=? 126) || (161 <=? n) && negb (n =? 173))%nat.

Definition repr_char (quote c : ascii) : string :=
  if Ascii.eqb c quote || Ascii.eqb c backslash then String backslash (String c "")
  else if (code c =? 10)%nat then String backslash "n"
  else if (code c =? 13)%nat then String backslash "r"
  else if (code c =? 9)%nat then String backslash "t"
  else if is_printable c then String c ""
  else String backslash
         (String "x" (String (hex_digit (code c / 16))
                        (String (hex_digit (code c mod 16)) ""))).

Fixpoint repr_body (quote : ascii) (s : string) : string :=
  match s with
  | EmptyString => EmptyString
  | String c r => repr_char quote c +:+ repr_body quote r
  end.

(** [repr(s)]: single quotes, unless the text holds a single quote and no
    double quote. *)
Definition repr (s : string) : string :=
  let quote :=
    if contains_char squote s && negb (contains_char dquote s)
    then dquote else squote in
  String quote (repr_body quote s +:+ String quote "").

(** ** Values *)

Inductive value : Type :=
| VNone
| VBool (b : bool)
| VInt (z : Z)
| VStr (s : string)
| VList (l : list value)
| VTuple (l : list value)
| VDict (d : list (string * value)).

(** A dict literal with [str] keys, in insertion order. *)
Definition dict : Type := list (string * value).

(** [d.get(k)] *)
Fixpoint dget (k : string) (d : dict) : option value :=
  match d with
  | [] => None
  | (k', v) :: r => if String.eqb k k' then Some v else dget k r
  end.

(** Truth value of an object ([if v], [not v], [v or w]). *)
Definition truthy (v : value) : bool :=
  match v with
  | VNone => false
  | VBool b => b
  | VInt z => negb (z =? 0)
  | VStr s => negb (is_empty s)
  | VList l | VTuple l => match l with [] => false | _ => true end
  | VDict d => match d with [] => false | _ => true end
  end.

(** [type(v).__name__] *)
Definition type_name (v : value) : string :=
  match v with
  | VNone => "NoneType"
  | VBool _ => "bool"
  | VInt _ => "int"
  | VStr _ => "str"
  | VList _ => "list"
  | VTuple _ => "tuple"
  | VDict _ => "dict"
  end.

(** [", ".join(xs)] *)
Fixpoint join_comma (xs : list string) : string :=
  match xs with
  | [] => ""
  | [x] => x
  | x :: r => x +:+ ", " +:+ join_comma r
  end.

(** [repr(v)] and [str(v)]. *)
Fixpoint repr_value (v : value) : string :=
  match v with
  | VNone => "None"
  | VBool b => if b then "True" else "False"
  | VInt z => NilZero.string_of_int (Z.to_int z)
  | VStr s => repr s
  | VList l => "[" +:+ join_comma (map repr_value l) +:+ "]"
  | VTuple l =>
      match l with
      | [x] => "(" +:+ repr_value x +:+ ",)"
      | _ => "(" +:+ join_comma (map repr_value l) +:+ ")"
      end
  | VDict d =>
      "{" +:+ join_comma
                (map (fun kv => match kv with
                                | (k, x) => repr k +:+ ": " +:+ repr_value x
                                end) d) +:+ "}"
  end.

Definition str (v : value) : string :=
  match v with
  | VStr s => s
  | _ => repr_value v
  end.

(** ** Exceptions

    What a handler can observe of a raised object: [type(e).__name__],
    [str(e)], and whether its class derives from [Exception] (an
    [except Exception] clause lets [KeyboardInterrupt], [SystemExit] and the
    like pass). *)
Record exn : Type := Exn {
  exc_class : string;
  exc_is_Exception : bool;
  exc_text : string
}.

Definition KeyError (key : string) : exn := Exn "KeyError" true (repr key).
Definition ValueError (msg : string) : exn := Exn "ValueError" true msg.
Definition TypeError (msg : string) : exn := Exn "TypeError" true msg.

Inductive outcome (A : Type) : Type :=
| Return (a : A)
| Raise (e : exn).
Arguments Return {A} a.
Arguments Raise {A} e.

(** ** [int(v)] *)

Definition digit_val (c : ascii) : option Z :=
  let n := code c in
  if ((48 <=? n) && (n <=? 57))%nat then Some (Z.of_nat (n - 48)) else None.

(** Decimal digits, single underscores allowed between two digits. *)
Fixpoint parse_digits (s : string) (acc : Z) (after_digit : bool) : option Z :=
  match s with
  | EmptyString => if after_digit then Some acc else None
  | String c r =>
      if Ascii.eqb c "_" then
        if after_digit then parse_digits r acc false else None
      else
        match digit_val c with
        | Some d => parse_digits r (10 * acc + d) true
        | None => None
        end
  end.

Definition parse_int (s : string) : option Z :=
  match strip_by is_int_space s with
  | String "-" r => option_map Z.opp (parse_digits r 0 false)
  | String "+" r => parse_digits r 0 false
  | t => parse_digits t 0 false
  end.

(** [int(v)] for the values of the model (the interpreter's limit on the
    number of digits of a literal is not part of it). *)
Definition int (v : value) : outcome Z :=
  match v with
  | VInt z => Return z
  | VBool b => Return (if b then 1 else 0)
  | VStr s =>
      match parse_int s with
      | Some z => Return z
      | None =>
          Raise (ValueError ("invalid literal for int() with base 10: " +:+ repr s))
      end
  | _ =>
      Raise (TypeError
        ("int() argument must be a string, a bytes-like object or a real number, not '"
           +:+ type_name v +:+ "'"))
  end.

(** ** State and exceptions

    A computation reads and updates a state [S] (the log of calls made to a
    collaborator, a pipe and a console) and ends in a value or a raised
    exception. *)
Definition M (S A : Type) : Type := S -> outcome A * S.

Definition ret {S A} (a : A) : M S A := fun s => (Return a, s).
Definition raise {S A} (e : exn) : M S A := fun s => (Raise e, s).
Definition bind {S A B} (m : M S A) (k : A -> M S B) : M S B :=
  fun s => match m s with
           | (Return a, s') => k a s'
           | (Raise e, s') => (Raise e, s')
           end.
Definition lift {S A} (o : outcome A) : M S A := fun s => (o, s).

(** [try: body / except Exception as e: handler(e)] *)
Definition try_except {S A} (body : M S A) (handler : exn -> M S A) : M S A :=
  fun s => match body s with
           | (Return a, s') => (Return a, s')
           | (Raise e, s') =>
               if exc_is_Exception e then handler e s' else (Raise e, s')
           end.

(** [with mgr as x: body], for a context manager whose [__enter__] returns
    the manager itself and whose [__exit__] releases the resource and returns
    [None]: [release] is told the exception the body ended with, if any; an
    exception of the body is never swallowed, and one raised while releasing
    replaces it. *)
Definition with_ {S A B} (mgr : M S A) (release : option exn -> M S unit)
    (body : A -> M S B) : M S B :=
  fun s => match mgr s with
           | (Raise e, s1) => (Raise e, s1)
           | (Return x, s1) =>
               match body x s1 with
               | (Return b, s2) =>
                   match release None s2 with
                   | (Return _, s3) => (Return b, s3)
                   | (Raise e', s3) => (Raise e', s3)
                   end
               | (Raise e, s2) =>
                   match release (Some e) s2 with
                   | (Return _, s3) => (Raise e, s3)
                   | (Raise e', s3) => (Raise e', s3)
                   end
               end
           end.

(** A computation that only adds to a log, each new entry satisfying [P]. *)
Definition emits {E A} (P : E -> Prop) (m : M (list E) A) : Prop :=
  forall log, exists calls, snd (m log) = log ++ calls /\ Forall P calls.

End Py.

Declare Scope py_scope.
Delimit Scope py_scope with py.
Notation "x <- m ;; k" := (Py.bind m (fun x => k))
  (at level 100, m at next level, right associativity) : py_scope.
Notation "m ;;; k" := (Py.bind m (fun _ => k))
  (at level 100, right associativity) : py_scope.


(* ===================================================================== *)
(** * [snowflake-mcp/server.py]                                            *)
(* ===================================================================== *)

Module Server.
Import Py.
Local Open Scope py_scope.

(** ** Preconfigured SQL *)

Definition basic_query_sql : string := "
SELECT
  CURRENT_USER()      AS user,
  CURRENT_ROLE()      AS role,
  CURRENT_WAREHOUSE() AS warehouse,
  CURRENT_DATABASE()  AS database,
  CURRENT_SCHEMA()    AS schema;
".

(** The module-level dict [QUERIES], in insertion order. *)
Definition QUERIES : list (string * string) :=
  [("basic_query", basic_query_sql)].

(** [k in d], [d.keys()] and [d[k]] for a dict from [str] to [str]. *)
Fixpoint find_key (k : string) (d : list (string * string)) : option string :=
  match d with
  | [] => None
  | (k', v) :: r => if String.eqb k k' then Some v else find_key k r
  end.

Definition contains (d : list (string * string)) (k : string) : bool :=
  match find_key k d with Some _ => true | None => false end.

Definition keys (d : list (string * string)) : list string := map fst d.

Definition getitem (d : list (string * string)) (k : string) : outcome string :=
  match find_key k d with
  | Some v => Return v
  | None => Raise (KeyError k)
  end.

(** [sorted(xs)] on a list of [str]: insertion in code point order. *)
Fixpoint insert_sorted (x : string) (l : list string) : list string :=
  match l with
  | [] => [x]
  | y :: r => if String.leb x y then x :: l else y :: insert_sorted x r
  end.

Fixpoint sorted (l : list string) : list string :=
  match l with
  | [] => []
  | x :: r => insert_sorted x (sorted r)
  end.

(** The order [sorted] sorts by. *)
Definition str_le (a b : string) : Prop := String.leb a b = true.

(** ** The warehouse collaborator

    [snowflake.connector] is outside the repository. What the server asks of
    it is recorded as a log of calls; what it answers is a function of the
    calls made so far, so that an answer may depend on the connection
    arguments and on the statement executed. *)

Inductive event : Type :=
| EvConnect (kwargs : dict)          (* [snowflake.connector.connect] *)
| EvCursor                           (* [conn.cursor()]               *)
| EvExecute (sql : string) (binds : option (list value))
                                     (* [cur.execute(sql, binds)]     *)
| EvFetchmany (size : Z)             (* [cur.fetchmany(size)]         *)
| EvCursorExit                       (* the cursor's [__exit__]       *)
| EvConnExit.                        (* the connection's [__exit__]   *)

(** One entry of [cur.description]; [c[0]] is the column's name. *)
Record ResultMetadata : Type := {
  name : string;
  type_code : Z
}.

Record Connector : Type := {
  connect_raises : list event -> dict -> option exn;
  cursor_raises : list event -> option exn;
  execute_raises : list event -> string -> option (list value) -> option exn;
  description : list event -> option (list ResultMetadata);
  fetchmany_result : list event -> Z -> outcome (list (list value));
  cursor_exit_raises : list event -> option exn -> option exn;
  conn_exit_raises : list event -> option exn -> option exn
}.

Definition failing (o : option exn) : outcome unit :=
  match o with Some e => Raise e | None => Return tt end.


(** The calls a run for the statement [sql] with the row limit [limit] may
    make: it executes [sql] alone, with no bind list, and fetches [limit]
    rows. *)
Definition asks_only (sql : string) (limit : Z) (ev : event) : Prop :=
  match ev with
  | EvExecute s binds => s = sql /\ binds = None
  | EvFetchmany size => size = limit
  | _ => True
  end.

Section Tools.

Variable sf : Connector.
(** [os.environ] *)
Variable environ : gmap string string.
(** [traceback.format_exc().splitlines()] while the exception is handled. *)
Variable format_exc : exn -> list string.

(** A call to the connector: logged, then answered. *)
Definition call {A} (ev : event) (answer : list event -> outcome A)
  : M (list event) A :=
  fun log => (answer log, log ++ [ev]).

Definition connector_connect (kwargs : dict) : M (list event) unit :=
  call (EvConnect kwargs) (fun log => failing (connect_raises sf log kwargs)).
Definition conn_cursor : M (list event) unit :=
  call EvCursor (fun log => failing (cursor_raises sf log)).
Definition cur_execute (sql : string) (binds : option (list value))
  : M (list event) unit :=
  call (EvExecute sql binds) (fun log => failing (execute_raises sf log sql binds)).
Definition cur_description : M (list event) (option (list ResultMetadata)) :=
  fun log => (Return (description sf log), log).
Definition cur_fetchmany (size : Z) : M (list event) (list (list value)) :=
  call (EvFetchmany size) (fun log => fetchmany_result sf log size).
Definition cur_exit (raised : option exn) : M (list event) unit :=
  call EvCursorExit (fun log => failing (cursor_exit_raises sf log raised)).
Definition conn_exit (raised : option exn) : M (list event) unit :=
  call EvConnExit (fun log => failing (conn_exit_raises sf log raised)).

(** ** Helpers *)

(** [os.environ.get(name)] as an object. *)
Definition environ_get (name : string) : value :=
  match environ !! name with Some v => VStr v | None => VNone end.

Definition _require_env (name : string) : outcome string :=
  match environ !! name with
  | Some v =>
      if negb (is_empty v) then Return v
      else Raise (KeyError ("Missing required environment variable: " +:+ name))
  | None => Raise (KeyError ("Missing required environment variable: " +:+ name))
  end.

(** The connection arguments, once the None and empty ones are removed. *)
Definition conn_kwargs (authenticator : string) : dict :=
  let conn_kwargs : dict :=
    [ ("account", VStr "uipath_observability.west-europe.azure");
      ("user", VStr "anurag.krishna@uipath.com");
      ("warehouse", VStr "PROD_CUSTOMER_READ");
      ("role", environ_get "SNOWFLAKE_ROLE");
      ("database", environ_get "SNOWFLAKE_DATABASE");
      ("schema", environ_get "SNOWFLAKE_SCHEMA");
      ("authenticator", VStr authenticator);
      ("client_session_keep_alive", VBool true) ] in
  List.filter (fun kv => truthy (snd kv)) conn_kwargs.

Definition _connect : M (list event) unit :=
  let authenticator :=
    default "externalbrowser" (environ !! "SNOWFLAKE_AUTHENTICATOR") in
  if negb (String.eqb authenticator "externalbrowser") then
    raise (ValueError
      ("SSO-only server: SNOWFLAKE_AUTHENTICATOR must be 'externalbrowser' (got '"
         +:+ authenticator +:+ "')"))
  else
    connector_connect (conn_kwargs authenticator).

Definition _normalize_ilike (pattern : value) : option string :=
  match pattern with
  | VNone => None
  | _ =>
      let p := strip (str pattern) in
      if is_empty p then None
      else if negb (contains_char "%" p) then Some ("%" +:+ p +:+ "%")
      else Some p
  end.

(** ** MCP tools *)

Definition list_saved_queries : dict :=
  [ ("queries", VList (map VStr (sorted (keys QUERIES))));
    ("params_schema",
     VDict [ ("month", VStr "int (required, 1..12)");
             ("year", VStr "int (required, 2000..2100)");
             ("connector_ilike",
              VStr "string (optional, e.g. 'salesforce' or '%sales%')") ]) ].

Definition _params_for (query_id : string) (params : value)
  : option (list value) := None.

(** [xs[-n:]] *)
Definition last_lines {A} (n : nat) (xs : list A) : list A :=
  skipn (length xs - n) xs.

(** The dict built by the [except Exception as e] clause. *)
Definition except_response (query_id : string) (e : exn) : dict :=
  [ ("ok", VBool false);
    ("query_id", VStr query_id);
    ("error_type", VStr (exc_class e));
    ("error", VStr (exc_text e));
    ("traceback_tail", VList (map VStr (last_lines 20 (format_exc e)))) ].

(** The body of the [try] statement. *)
Definition try_body (query_id sql : string) (params : value) (max_rows : Z)
  : M (list event) dict :=
  let binds : option (list value) := None in
  with_ _connect conn_exit (fun conn =>
    with_ conn_cursor cur_exit (fun cur =>
      cur_execute sql binds ;;;
      desc <- cur_description ;;
      let cols :=
        match desc with
        | Some (c :: cs) => map name (c :: cs)
        | _ => []
        end in
      rows <- cur_fetchmany max_rows ;;
      ret [ ("ok", VBool true);
            ("query_id", VStr query_id);
            ("params_used", if truthy params then params else VDict []);
            ("columns", VList (map VStr cols));
            ("rows", VList (map VTuple rows));
            ("row_count_returned", VInt (Z.of_nat (length rows)));
            ("row_limit", VInt max_rows) ])).

Definition run_saved_query (query_id : string) (params max_rows : value)
  : M (list event) dict :=
  if negb (contains QUERIES query_id) then
    ret [ ("ok", VBool false);
          ("error", VStr ("Unknown query_id '" +:+ query_id +:+ "'"));
          ("allowed", VList (map VStr (sorted (keys QUERIES)))) ]
  else
    sql <- lift (getitem QUERIES query_id) ;;
    n <- lift (int max_rows) ;;
    let max_rows := Z.max 1 (Z.min n 5000) in
    try_except (try_body query_id sql params max_rows)
               (fun e => ret (except_response query_id e)).

End Tools.

(** The defaults of [run_saved_query]'s optional arguments. *)
Definition default_params : value := VNone.
Definition default_max_rows : value := VInt 500.

End Server.

(* ===================================================================== *)
(** * [run_mcp_tool.py]: the reader of the harness                         *)
(* ===================================================================== *)

Module Harness.

(** The harness reads raw bytes from the server's pipe, so its text is what
    the UTF-8 decoder yields: a list of code points. *)
Definition text : Type := list N.

Definition text_of (s : string) : text := map N_of_ascii (list_ascii_of_string s).

(** ** [bytes.decode('utf-8')], strict *)

Definition is_cont (b : N) : bool := ((0x80 <=? b) && (b <=? 0xBF))%N.
Definition low6 (b : N) : N := (b - 0x80)%N.

(** The second byte of a three-byte and of a four-byte sequence: no overlong
    form, no surrogate, nothing above U+10FFFF. *)
Definition second_of_3 (b1 b2 : N) : bool :=
  (if b1 =? 0xE0 then (0xA0 <=? b2) && (b2 <=? 0xBF)
   else if b1 =? 0xED then (0x80 <=? b2) && (b2 <=? 0x9F)
   else is_cont b2)%N.
Definition second_of_4 (b1 b2 : N) : bool :=
  (if b1 =? 0xF0 then (0x90 <=? b2) && (b2 <=? 0xBF)
   else if b1 =? 0xF4 then (0x80 <=? b2) && (b2 <=? 0x8F)
   else is_cont b2)%N.

(** [None] stands for [UnicodeDecodeError]. *)
Fixpoint decode_bytes (bs : list N) : option text :=
  match bs with
  | [] => Some []
  | b1 :: r1 =>
      if (b1 <? 0x80)%N then option_map (cons b1) (decode_bytes r1)
      else if ((0xC2 <=? b1) && (b1 <=? 0xDF))%N then
        match r1 with
        | b2 :: r2 =>
            if is_cont b2
            then option_map (cons ((b1 - 0xC0) * 64 + low6 b2)%N) (decode_bytes r2)
            else None
        | _ => None
        end
      else if ((0xE0 <=? b1) && (b1 <=? 0xEF))%N then
        match r1 with
        | b2 :: b3 :: r3 =>
            if second_of_3 b1 b2 && is_cont b3
            then option_map
                   (cons (((b1 - 0xE0) * 64 + low6 b2) * 64 + low6 b3)%N)
                   (decode_bytes r3)
            else None
        | _ => None
        end
      else if ((0xF0 <=? b1) && (b1 <=? 0xF4))%N then
        match r1 with
        | b2 :: b3 :: b4 :: r4 =>
            if second_of_4 b1 b2 && is_cont b3 && is_cont b4
            then option_map
                   (cons ((((b1 - 0xF0) * 64 + low6 b2) * 64 + low6 b3) * 64
                          + low6 b4)%N)
                   (decode_bytes r4)
            else None
        | _ => None
        end
      else None
  end.

Definition decode (raw : string) : option text :=
  decode_bytes (map N_of_ascii (list_ascii_of_string raw)).

(** ** [str.strip()] on code points *)

Definition is_space (c : N) : bool :=
  ((9 <=? c) && (c <=? 13) || (28 <=? c) && (c <=? 32)
   || (c =? 0x85) || (c =? 0xA0) || (c =? 0x1680)
   || (0x2000 <=? c) && (c <=? 0x200A)
   || (c =? 0x2028) || (c =? 0x2029) || (c =? 0x202F) || (c =? 0x205F)
   || (c =? 0x3000))%N.

Fixpoint lstrip (t : text) : text :=
  match t with
  | [] => []
  | c :: r => if is_space c then lstrip r else t
  end.

Fixpoint rstrip (t : text) : text :=
  match t with
  | [] => []
  | c :: r =>
      match rstrip r with
      | [] => if is_space c then [] else [c]
      | r' => c :: r'
      end
  end.

Definition strip (t : text) : text := rstrip (lstrip t).

(** ** The pipe *)

Definition newline : ascii := ascii_of_nat 10.

(** [process.stdout.readline()]: the bytes up to and with the next newline,
    all that is left when there is none, [b''] at the end of the stream; and
    what stays in the pipe. *)
Fixpoint readline (pipe : string) : string * string :=
  match pipe with
  | EmptyString => (EmptyString, EmptyString)
  | String c r =>
      if Ascii.eqb c newline then (String c EmptyString, r)
      else let (l, rest) := readline r in (String c l, rest)
  end.

Inductive read_result (message : Type) : Type :=
| Parsed (m : message)              (* [return json.loads(line)] *)
| NoMoreOutput                      (* [return None]             *)
| RaisesUnicodeDecodeError.
Arguments Parsed {message} m.
Arguments NoMoreOutput {message}.
Arguments RaisesUnicodeDecodeError {message}.

Inductive iteration (message : Type) : Type :=
| Stop (r : read_result message)
| Continue (line : text).
Arguments Stop {message} r.
Arguments Continue {message} line.

Definition inspect {A} (a : A) : {b : A | a = b} := exist _ a eq_refl.

Section Reader.

(** The parsed message, and [json.loads] on a text: [None] stands for
    [json.JSONDecodeError]. *)
Variable message : Type.
Variable json_loads : text -> option message.

(** One turn of the [while True] loop on the line just read. *)
Definition iterate (raw : string) : iteration message :=
  match decode raw with
  | None => Stop RaisesUnicodeDecodeError
  | Some t =>
      match strip t with
      | [] => Stop NoMoreOutput
      | line =>
          match json_loads line with
          | Some m => Stop (Parsed m)
          | None => Continue line
          end
      end
  end.

(** The state is the unread part of the pipe and what was printed. *)
Equations? read_loop (pipe : string) (console : list text)
  : read_result message * (string * list text)
  by wf (String.length pipe) lt :=
read_loop pipe console with inspect (readline pipe) := {
  | exist _ (raw, rest) Hread with inspect (iterate raw) := {
    | exist _ (Stop r) _ => (r, (rest, console));
    | exist _ (Continue line) Hturn =>
        read_loop rest (console ++ [text_of "Non-JSON output: " ++ line]) } }.
Proof.
  assert (Hlen : forall p,
    (String.length (fst (readline p)) + String.length (snd (readline p))
     = String.length p)%nat).
  { induction p as [|c r IH]; simpl; [reflexivity|].
    destruct (Ascii.eqb c newline); simpl; [reflexivity|].
    destruct (readline r) as [l rest']; simpl in *. lia. }
  specialize (Hlen pipe). rewrite Hread in Hlen. simpl in Hlen.
  destruct raw; [discriminate Hturn | simpl in Hlen; lia].
Qed.

Definition read_rpc_response (pipe : string) (console : list text)
  : read_result message * (string * list text) :=
  read_loop pipe console.

End Reader.

(** ** [str.encode('utf-8')], strict *)

(** The bytes of one code point; [None] stands for [UnicodeEncodeError] (a
    surrogate; a number above U+10FFFF is no code point). *)
Definition encode_point (c : N) : option (list N) :=
  (if c <? 0x80 then Some [c]
   else if c <? 0x800 then Some [0xC0 + c / 64; 0x80 + c mod 64]
   else if c <? 0x10000 then
     if (0xD800 <=? c) && (c <=? 0xDFFF) then None
     else Some [0xE0 + c / 4096; 0x80 + (c / 64) mod 64; 0x80 + c mod 64]
   else if c <? 0x110000 then
     Some [0xF0 + c / 262144; 0x80 + (c / 4096) mod 64;
           0x80 + (c / 64) mod 64; 0x80 + c mod 64]
   else None)%N.

Fixpoint encode_points (t : text) : option (list N) :=
  match t with
  | [] => Some []
  | c :: r =>
      match encode_point c, encode_points r with
      | Some bs, Some rs => Some (bs ++ rs)
      | _, _ => None
      end
  end.

Definition bytes_of (bs : list N) : string :=
  string_of_list_ascii (map ascii_of_N bs).

Definition encode (t : text) : option string :=
  option_map bytes_of (encode_points t).

(** ** The writer *)

Inductive write_result : Type :=
| Written
| RaisesUnicodeEncodeError.

Section Writer.

(** A JSON-serializable object, and [json.dumps] on it. *)
Variable message : Type.
Variable json_dumps : message -> text.

(** [send_rpc_message(process, message)] on the bytes written to the
    server's stdin so far (the pipe is unbuffered, so [flush] adds
    nothing). *)
Definition send_rpc_message (stdin : string) (msg : message)
  : write_result * string :=
  let message_str := json_dumps msg in
  match encode (message_str ++ [10%N]) with
  | Some data => (Written, stdin +:+ data)
  | None => (RaisesUnicodeEncodeError, stdin)
  end.

End Writer.

(** ** Lines, for stating what the reader does with a stream *)

(** A line of the stream: its bytes and the newline that ends it. *)
Definition line (l : string) : string := l +:+ String newline EmptyString.

Fixpoint lines (ls : list string) : string :=
  match ls with
  | [] => EmptyString
  | l :: r => line l +:+ lines r
  end.

(** What the reader prints for a line it passes over. *)
Definition printed (t : text) : text := text_of "Non-JSON output: " ++ t.

(** [line_text l t]: the line [l] holds no newline of its own, and decodes
    and strips to the text [t], which is not empty. *)
Definition line_text (l : string) (t : text) : Prop :=
  Py.contains_char newline l = false
  /\ exists t', decode (line l) = Some t' /\ strip t' = t /\ t <> [].

(** What [json.dumps] yields with its defaults (ASCII only, no indent): a
    text of printable ASCII that neither starts nor ends with a space. *)
Definition json_text (t : text) : Prop :=
  Forall (fun c => (0x20 <= c <= 0x7E)%N) t
  /\ (exists c u, t = c :: u /\ c <> 0x20%N)
  /\ (exists u d, t = u ++ [d] /\ d <> 0x20%N).

End Harness.

(* ===================================================================== *)
(** * [run_mcp_tool.py]: the request of [main]                             *)
(* ===================================================================== *)

Module Main.
Import Py.

Definition current_month : Z := 1.
Definition current_year : Z := 2026.

(** The ["arguments"] of the [tools/call] request [main] sends for
    [run_saved_query]; [max_rows] is left to its default. *)
Definition query_id : string := "connector_usage".
Definition params : value :=
  VDict [("month", VInt current_month); ("year", VInt current_year)].

End Main.

(* ===================================================================== *)
(** * Scenarios: concrete collaborators and environments                   *)
(* ===================================================================== *)

Module Scenarios.
Import Py Server.

Definition session_columns : list ResultMetadata :=
  map (fun n => {| name := n; type_code := 2 |})
      ["USER"; "ROLE"; "WAREHOUSE"; "DATABASE"; "SCHEMA"].

Definition session_row : list value :=
  [VStr "ANALYST"; VStr "READER"; VStr "PROD_CUSTOMER_READ"; VNone; VNone].

(** A warehouse that answers every statement with the one row of the
    session query. *)
Definition warehouse : Connector := {|
  connect_raises := fun _ _ => None;
  cursor_raises := fun _ => None;
  execute_raises := fun _ _ _ => None;
  description := fun _ => Some session_columns;
  fetchmany_result := fun _ size => Return (firstn (Z.to_nat size) [session_row]);
  cursor_exit_raises := fun _ _ => None;
  conn_exit_raises := fun _ _ => None
|}.

(** The response of [run_saved_query("basic_query")] against it. *)
Definition session_response : dict :=
  [ ("ok", VBool true);
    ("query_id", VStr "basic_query");
    ("params_used", VDict []);
    ("columns",
     VList (map VStr ["USER"; "ROLE"; "WAREHOUSE"; "DATABASE"; "SCHEMA"]));
    ("rows", VList [VTuple session_row]);
    ("row_count_returned", VInt 1);
    ("row_limit", VInt 500) ].



(** A two-line rendering of the handled exception. *)
Definition short_traceback (e : exn) : list string :=
  ["Traceback (most recent call last):"; exc_class e +:+ ": " +:+ exc_text e].

Definition no_settings : gmap string string := ∅.
Definition reader_settings : gmap string string :=
  {[ "SNOWFLAKE_ROLE" := "READER"; "SNOWFLAKE_DATABASE" := "" ]}.
Definition password_login : gmap string string :=
  {[ "SNOWFLAKE_AUTHENTICATOR" := "password" ]}.

(** A stand-in for [json.loads] that takes a text opening with a brace for
    a message and keeps it as it is. *)
Definition braced (t : Harness.text) : option Harness.text :=
  match t with
  | 123%N :: _ => Some t
  | _ => None
  end.

(** A warehouse that refuses the statement: [execute] raises [e]. *)
Definition rejecting (e : exn) : Connector := {|
  connect_raises := fun _ _ => None;
  cursor_raises := fun _ => None;
  execute_raises := fun _ _ _ => Some e;
  description := fun _ => None;
  fetchmany_result := fun _ _ => Return [];
  cursor_exit_raises := fun _ _ => None;
  conn_exit_raises := fun _ _ => None
|}.

Definition ProgrammingError : exn :=
  Exn "ProgrammingError" true "001003 (42000): SQL compilation error".

(** A stand-in for [json.dumps] and [json.loads] on messages that are
    already JSON texts. *)
Definition dumped (t : Harness.text) : Harness.text := t.

End Scenarios.

(* ===================================================================== *)
(** * Properties of the runtime fragment                                   *)
(* ===================================================================== *)

Import Py.

Section Strip.

Variable sp : ascii -> bool.







End Strip.


Example strip_example : strip "  sales force   " = "sales force".
Proof. reflexivity. Qed.

Example int_examples :
  int (VStr " -1_000 ") = Return (-1000)
  /\ int (VBool true) = Return 1
  /\ int (VStr (String (ascii_of_nat 160) "7")) = Return 7
  /\ int (VStr (String (ascii_of_nat 31) "7"))
     = Raise (ValueError "invalid literal for int() with base 10: '\x1f7'")
  /\ strip (String (ascii_of_nat 31) "7") = "7"
  /\ int (VStr "1__0")
     = Raise (ValueError "invalid literal for int() with base 10: '1__0'")
  /\ int VNone
     = Raise (TypeError "int() argument must be a string, a bytes-like object or a real number, not 'NoneType'").
Proof. repeat split. Qed.

(* ===================================================================== *)
(** * Properties of the server                                             *)
(* ===================================================================== *)

Import Server.

(** ** The whitelist *)

Lemma str_le_total (a b : string) : String.leb a b = false -> str_le b a.
Proof.
  unfold str_le, String.leb. rewrite (String.compare_antisym a b).
  destruct (String.compare b a); simpl; congruence.
Qed.

Lemma insert_sorted_perm (x : string) (l : list string) :
  Permutation (insert_sorted x l) (x :: l).
Proof.
  induction l as [|y r IH]; simpl; [reflexivity|].
  destruct (String.leb x y); [reflexivity|].
  rewrite IH. apply perm_swap.
Qed.

Lemma sorted_perm (l : list string) : Permutation (sorted l) l.
Proof.
  induction l as [|x r IH]; simpl; [reflexivity|].
  rewrite insert_sorted_perm. constructor. exact IH.
Qed.

Lemma insert_sorted_hd (x a : string) (l : list string) :
  str_le a x -> HdRel str_le a l -> HdRel str_le a (insert_sorted x l).
Proof.
  intros Hax Hal. destruct l as [|y r]; simpl; [constructor; exact Hax|].
  destruct (String.leb x y); constructor; [exact Hax|].
  inversion Hal; assumption.
Qed.

Lemma insert_sorted_sorted (x : string) (l : list string) :
  Sorted str_le l -> Sorted str_le (insert_sorted x l).
Proof.
  induction 1 as [|y r Hs IH Hhd]; simpl; [repeat constructor|].
  destruct (String.leb x y) eqn:Hxy.
  - constructor; [constructor; assumption | constructor; exact Hxy].
  - constructor; [exact IH|].
    apply insert_sorted_hd; [apply str_le_total; exact Hxy | exact Hhd].
Qed.

Lemma sorted_sorted (l : list string) : Sorted str_le (sorted l).
Proof.
  induction l as [|x r IH]; simpl; [constructor|].
  apply insert_sorted_sorted. exact IH.
Qed.

Lemma contains_In (d : list (string * string)) (k : string) :
  contains d k = true <-> In k (keys d).
Proof.
  unfold contains, keys. induction d as [|[k' v] r IH]; simpl.
  - split; [discriminate | tauto].
  - destruct (String.eqb k k') eqn:E.
    + apply String.eqb_eq in E. subst. split; auto.
    + apply String.eqb_neq in E. rewrite IH. split; [auto | intros [H|H]; congruence].
Qed.

Lemma contains_find (d : list (string * string)) (k : string) :
  contains d k = true <-> exists v, find_key k d = Some v.
Proof.
  unfold contains. destruct (find_key k d) as [v|].
  - split; [eauto | reflexivity].
  - split; [discriminate | intros [v H]; discriminate].
Qed.

Lemma whitelist_keys : sorted (keys QUERIES) = ["basic_query"].
Proof. reflexivity. Qed.

(** ** Unfolding [run_saved_query] *)

Section Run.

Variable sf : Connector.
Variable environ : gmap string string.
Variable format_exc : exn -> list string.

Lemma run_unknown (query_id : string) (params max_rows : value) (log : list event) :
  contains QUERIES query_id = false ->
  run_saved_query sf environ format_exc query_id params max_rows log
  = (Return [ ("ok", VBool false);
              ("error", VStr ("Unknown query_id '" +:+ query_id +:+ "'"));
              ("allowed", VList (map VStr (sorted (keys QUERIES)))) ],
     log).
Proof. intros H. unfold run_saved_query. rewrite H. reflexivity. Qed.

Lemma run_whitelisted (query_id sql : string) (params max_rows : value)
    (log : list event) :
  find_key query_id QUERIES = Some sql ->
  run_saved_query sf environ format_exc query_id params max_rows log
  = match int max_rows with
    | Return n =>
        try_except
          (try_body sf environ query_id sql params (Z.max 1 (Z.min n 5000)))
          (fun e => ret (except_response format_exc query_id e)) log
    | Raise e => (Raise e, log)
    end.
Proof.
  intros H. unfold run_saved_query, contains, getitem. rewrite H. simpl.
  unfold bind, lift. destruct (int max_rows); reflexivity.
Qed.

End Run.

(** ** C2: an unknown [query_id] *)

(** C2. For every [query_id] that is not a key of [QUERIES],
    [run_saved_query] returns
    [{"ok": False, "error": "Unknown query_id '<query_id>'", "allowed": [...]}],
    where [allowed] is the sorted list of the keys of [QUERIES], whatever
    [params] and [max_rows] are, and makes no call to the warehouse: the log
    of calls is left as it was. *)
Theorem unknown_query_id_rejected
    (sf : Connector) (environ : gmap string string)
    (format_exc : exn -> list string)
    (query_id : string) (params max_rows : value) (log : list event) :
  ~ In query_id (keys QUERIES) ->
  exists allowed,
    run_saved_query sf environ format_exc query_id params max_rows log
    = (Return [ ("ok", VBool false);
                ("error", VStr ("Unknown query_id '" +:+ query_id +:+ "'"));
                ("allowed", VList (map VStr allowed)) ],
       log)
    /\ Permutation allowed (keys QUERIES)
    /\ Sorted str_le allowed.
Proof.
  intros Hnot. exists (sorted (keys QUERIES)). split; [|split].
  - apply run_unknown. destruct (contains QUERIES query_id) eqn:E; [|reflexivity].
    exfalso. apply Hnot. apply contains_In. exact E.
  - apply sorted_perm.
  - apply sorted_sorted.
Qed.

(** Scenario C of the design document. *)
Lemma unknown_query_id_rejected_witness :
  exists allowed,
    run_saved_query Scenarios.warehouse Scenarios.no_settings
      Scenarios.short_traceback "does_not_exist" default_params
      default_max_rows []
    = (Return [ ("ok", VBool false);
                ("error", VStr "Unknown query_id 'does_not_exist'");
                ("allowed", VList (map VStr allowed)) ],
       [])
    /\ Permutation allowed (keys QUERIES)
    /\ Sorted str_le allowed.
Proof.
  apply (unknown_query_id_rejected Scenarios.warehouse Scenarios.no_settings
           Scenarios.short_traceback "does_not_exist" default_params
           default_max_rows []).
  simpl. intros [H|[]]. discriminate H.
Defined.

(** ** C6: the authenticator *)

(** C6. In every environment where [SNOWFLAKE_AUTHENTICATOR] is set to a
    value other than ["externalbrowser"], [_connect] raises a [ValueError]
    whose message quotes that value, and the connector has not been called:
    the log of calls is left as it was. *)
Theorem connect_refuses_other_authenticator
    (sf : Connector) (environ : gmap string string) (v : string)
    (log : list event) :
  environ !! "SNOWFLAKE_AUTHENTICATOR" = Some v ->
  v <> "externalbrowser" ->
  _connect sf environ log
  = (Raise (ValueError
       ("SSO-only server: SNOWFLAKE_AUTHENTICATOR must be 'externalbrowser' (got '"
          +:+ v +:+ "')")),
     log).
Proof.
  intros Hv Hne. unfold _connect. rewrite Hv. simpl.
  apply String.eqb_neq in Hne. rewrite Hne. reflexivity.
Qed.

(** Scenario D of the design document. *)
Lemma connect_refuses_other_authenticator_witness :
  _connect Scenarios.warehouse Scenarios.password_login []
  = (Raise (ValueError
       "SSO-only server: SNOWFLAKE_AUTHENTICATOR must be 'externalbrowser' (got 'password')"),
     []).
Proof.
  apply (connect_refuses_other_authenticator Scenarios.warehouse
           Scenarios.password_login "password" []).
  - reflexivity.
  - discriminate.
Defined.

(** ** C8: the filter-pattern normalizer *)



Example normalize_ilike_examples :
  _normalize_ilike (VStr "salesforce") = Some "%salesforce%"
  /\ _normalize_ilike (VStr "  %sales% ") = Some "%sales%"
  /\ _normalize_ilike (VStr "   ") = None
  /\ _normalize_ilike VNone = None
  /\ _normalize_ilike (VInt 42) = Some "%42%".
Proof. repeat split. Qed.

(** ** The log of calls of a computation *)

Section Emits.

Context {E : Type} (P : E -> Prop).

Lemma emits_ret {A} (a : A) : emits P (ret a).
Proof. intros log. exists []. simpl. rewrite List.app_nil_r. auto. Qed.

Lemma emits_raise {A} (e : exn) : emits P (@raise (list E) A e).
Proof. intros log. exists []. simpl. rewrite List.app_nil_r. auto. Qed.

Lemma emits_lift {A} (o : outcome A) : emits P (lift o).
Proof. intros log. exists []. simpl. rewrite List.app_nil_r. auto. Qed.

Lemma emits_then {A} (m : M (list E) A) (log : list E) (Q : list E -> Prop) :
  emits P m ->
  (forall calls, Forall P calls -> snd (m log) = log ++ calls -> Q (log ++ calls)) ->
  Q (snd (m log)).
Proof.
  intros Hm HQ. destruct (Hm log) as [calls [Heq HP]].
  rewrite Heq. apply HQ; assumption.
Qed.

Lemma emits_bind {A B} (m : M (list E) A) (k : A -> M (list E) B) :
  emits P m -> (forall a, emits P (k a)) -> emits P (bind m k).
Proof.
  intros Hm Hk log. unfold bind.
  destruct (Hm log) as [c1 [E1 F1]].
  destruct (m log) as [[a|e] s1]; simpl in E1; subst s1.
  - destruct (Hk a (log ++ c1)) as [c2 [E2 F2]].
    exists (c1 ++ c2). rewrite E2, List.app_assoc. split; [reflexivity|].
    apply Forall_app; auto.
  - exists c1. auto.
Qed.

Lemma emits_try {A} (body : M (list E) A) (handler : exn -> M (list E) A) :
  emits P body -> (forall e, emits P (handler e)) ->
  emits P (try_except body handler).
Proof.
  intros Hb Hh log. unfold try_except.
  destruct (Hb log) as [c1 [E1 F1]].
  destruct (body log) as [[a|e] s1]; simpl in E1; subst s1.
  - exists c1. auto.
  - destruct (exc_is_Exception e); [|exists c1; auto].
    destruct (Hh e (log ++ c1)) as [c2 [E2 F2]].
    exists (c1 ++ c2). rewrite E2, List.app_assoc. split; [reflexivity|].
    apply Forall_app; auto.
Qed.

Lemma emits_with {A B} (mgr : M (list E) A) (release : option exn -> M (list E) unit)
    (body : A -> M (list E) B) :
  emits P mgr -> (forall o, emits P (release o)) -> (forall x, emits P (body x)) ->
  emits P (with_ mgr release body).
Proof.
  intros Hm Hr Hb log. unfold with_.
  destruct (Hm log) as [c1 [E1 F1]].
  destruct (mgr log) as [[x|e] s1]; simpl in E1; subst s1; [|exists c1; auto].
  destruct (Hb x (log ++ c1)) as [c2 [E2 F2]].
  destruct (body x (log ++ c1)) as [[b|e] s2]; simpl in E2; subst s2.
  - destruct (Hr None ((log ++ c1) ++ c2)) as [c3 [E3 F3]].
    exists (c1 ++ c2 ++ c3).
    destruct (release None ((log ++ c1) ++ c2)) as [[u|e'] s3];
      simpl in E3; subst s3; simpl;
      (split; [repeat rewrite List.app_assoc; reflexivity|]);
      repeat (apply Forall_app; split); auto.
  - destruct (Hr (Some e) ((log ++ c1) ++ c2)) as [c3 [E3 F3]].
    exists (c1 ++ c2 ++ c3).
    destruct (release (Some e) ((log ++ c1) ++ c2)) as [[u|e'] s3];
      simpl in E3; subst s3; simpl;
      (split; [repeat rewrite List.app_assoc; reflexivity|]);
      repeat (apply Forall_app; split); auto.
Qed.

End Emits.

(** ** The calls of one run *)

Ltac break_match :=
  match goal with
  | |- context [match ?x with _ => _ end] =>
      lazymatch x with
      | context [match _ with _ => _ end] => fail
      | _ => destruct x eqn:?
      end
  end.

Section Calls.

Variable sf : Connector.
Variable environ : gmap string string.
Variable format_exc : exn -> list string.

Lemma emits_call {A} (P : event -> Prop) (ev : event)
    (answer : list event -> outcome A) :
  P ev -> emits P (call ev answer).
Proof. intros H log. exists [ev]. simpl. auto. Qed.

Lemma connect_cases (log : list event) :
  _connect sf environ log
  = let authenticator :=
      default "externalbrowser" (environ !! "SNOWFLAKE_AUTHENTICATOR") in
    if String.eqb authenticator "externalbrowser"
    then (failing (connect_raises sf log (conn_kwargs environ authenticator)),
          log ++ [EvConnect (conn_kwargs environ authenticator)])
    else (Raise (ValueError
            ("SSO-only server: SNOWFLAKE_AUTHENTICATOR must be 'externalbrowser' (got '"
               +:+ authenticator +:+ "')")),
          log).
Proof.
  unfold _connect. cbv zeta.
  destruct (String.eqb _ "externalbrowser"); reflexivity.
Qed.

Lemma connect_emits (P : event -> Prop) :
  (forall kwargs, P (EvConnect kwargs)) -> emits P (_connect sf environ).
Proof.
  intros HP. unfold _connect. cbv zeta.
  destruct (negb _); [apply emits_raise | apply emits_call, HP].
Qed.

Lemma try_body_emits (query_id sql : string) (params : value) (limit : Z) :
  emits (asks_only sql limit) (try_body sf environ query_id sql params limit).
Proof.
  unfold try_body.
  apply emits_with; [apply connect_emits; exact (fun _ => I) | |].
  { intros o. apply emits_call. exact I. }
  intros _. apply emits_with; [apply emits_call; exact I | |].
  { intros o. apply emits_call. exact I. }
  intros _. apply emits_bind; [apply emits_call; split; reflexivity |].
  intros _. apply emits_bind.
  { intros log. exists []. simpl. rewrite List.app_nil_r. auto. }
  intros desc. apply emits_bind; [apply emits_call; reflexivity |].
  intros rows. apply emits_ret.
Qed.

Lemma run_emits (query_id sql : string) (params : value) (z : Z) :
  find_key query_id QUERIES = Some sql ->
  emits (asks_only sql (Z.max 1 (Z.min z 5000)))
        (run_saved_query sf environ format_exc query_id params (VInt z)).
Proof.
  intros H log. rewrite (run_whitelisted _ _ _ _ _ _ _ _ H). simpl.
  apply emits_try; [apply try_body_emits | intros e; apply emits_ret].
Qed.

End Calls.

Ltac run_body :=
  unfold try_body, with_, bind, ret, conn_cursor, cur_execute, cur_description,
    cur_fetchmany, cur_exit, conn_exit, call;
  repeat rewrite connect_cases; cbv zeta; unfold failing;
  repeat (cbv beta iota; cbn [fst snd]; break_match);
  cbv beta iota; cbn [fst snd].

Section Params.

Variable sf : Connector.
Variable environ : gmap string string.
Variable format_exc : exn -> list string.

(** The [params] argument reaches the response and nothing else: not the
    calls made, not the exception raised. *)
Lemma try_body_params (query_id sql : string) (params1 params2 : value)
    (limit : Z) (log : list event) :
  snd (try_body sf environ query_id sql params1 limit log)
  = snd (try_body sf environ query_id sql params2 limit log)
  /\ match fst (try_body sf environ query_id sql params1 limit log),
           fst (try_body sf environ query_id sql params2 limit log) with
     | Return _, Return _ => True
     | Raise e1, Raise e2 => e1 = e2
     | _, _ => False
     end.
Proof. run_body; split; first [reflexivity | exact I]. Qed.

End Params.

(** ** How a run ends *)

Section Ends.

Variable sf : Connector.
Variable environ : gmap string string.
Variable format_exc : exn -> list string.

(** When the body of the [try] returns, every call to the warehouse was
    answered without an exception, and the response is built from the
    description and the rows fetched after the statement was executed. *)
Lemma try_body_returns (query_id sql : string) (params : value) (limit : Z)
    (log : list event) (d : dict) :
  fst (try_body sf environ query_id sql params limit log) = Return d ->
  exists kwargs rows,
    connect_raises sf log kwargs = None
    /\ cursor_raises sf (log ++ [EvConnect kwargs]) = None
    /\ execute_raises sf (log ++ [EvConnect kwargs; EvCursor]) sql None = None
    /\ fetchmany_result sf (log ++ [EvConnect kwargs; EvCursor; EvExecute sql None])
         limit = Return rows
    /\ d = [ ("ok", VBool true);
             ("query_id", VStr query_id);
             ("params_used", if truthy params then params else VDict []);
             ("columns",
              VList (map VStr (map name (default []
                (description sf
                   (log ++ [EvConnect kwargs; EvCursor; EvExecute sql None]))))));
             ("rows", VList (map VTuple rows));
             ("row_count_returned", VInt (Z.of_nat (length rows)));
             ("row_limit", VInt limit) ].
Proof.
  run_body; intros H; try discriminate H.
  all: repeat rewrite <- List.app_assoc in *; cbn [app] in *.
  all: match goal with
       | Hc : connect_raises _ _ ?kw = None |- _ => exists kw
       end.
  all: eexists; repeat (split; [eassumption || reflexivity|]).
  all: injection H as <-.
  all: match goal with
       | Hd : description _ _ = _ |- _ => rewrite Hd
       end; reflexivity.
Qed.

Lemma run_ends (query_id sql : string) (params max_rows : value) (n : Z)
    (log : list event) :
  find_key query_id QUERIES = Some sql ->
  int max_rows = Return n ->
  let body := try_body sf environ query_id sql params (Z.max 1 (Z.min n 5000)) in
  run_saved_query sf environ format_exc query_id params max_rows log
  = match fst (body log) with
    | Return d => (Return d, snd (body log))
    | Raise e =>
        if exc_is_Exception e
        then (Return (except_response format_exc query_id e), snd (body log))
        else (Raise e, snd (body log))
    end.
Proof.
  intros H Hint body. rewrite (run_whitelisted _ _ _ _ _ _ _ _ H), Hint.
  unfold try_except. fold body.
  destruct (body log) as [[d|e] log']; simpl; [reflexivity|].
  destruct (exc_is_Exception e); reflexivity.
Qed.


End Ends.

Lemma getitem_find (d : list (string * string)) (k v : string) :
  getitem d k = Return v <-> find_key k d = Some v.
Proof.
  unfold getitem. destruct (find_key k d); split; congruence.
Qed.

(** ** C1: the SQL text *)

(** C1. For every call of [run_saved_query] with a whitelisted [query_id],
    every statement given to [cur.execute] is the template
    [QUERIES[query_id]], given with no bind list ([binds] is [None], as is
    what [_params_for] returns), and two calls that differ in [params] alone
    make the same calls to the warehouse: [params] is never part of the SQL
    text. *)
Theorem sql_text_is_the_fixed_template
    (sf : Connector) (environ : gmap string string)
    (format_exc : exn -> list string)
    (query_id sql : string) (params1 params2 max_rows : value)
    (log : list event) :
  getitem QUERIES query_id = Return sql ->
  (exists calls,
     snd (run_saved_query sf environ format_exc query_id params1 max_rows log)
     = log ++ calls
     /\ forall s binds, In (EvExecute s binds) calls -> s = sql /\ binds = None)
  /\ snd (run_saved_query sf environ format_exc query_id params1 max_rows log)
     = snd (run_saved_query sf environ format_exc query_id params2 max_rows log)
  /\ _params_for query_id params1 = None.
Proof.
  intros Hsql. apply getitem_find in Hsql.
  repeat rewrite (run_whitelisted _ _ _ _ _ _ _ _ Hsql).
  destruct (int max_rows) as [n|e]; [|repeat split].
  - split; [|split; [|reflexivity]].
    + eapply emits_then with (m := try_except _ _).
      * apply emits_try; [apply try_body_emits | intros e; apply emits_ret].
      * intros calls HP _. exists calls. split; [reflexivity|].
        intros s binds Hin.
        rewrite List.Forall_forall in HP. exact (HP _ Hin).
    + unfold try_except.
      destruct (try_body_params sf environ query_id sql params1 params2
                  (Z.max 1 (Z.min n 5000)) log) as [Hlog Hend].
      destruct (try_body sf environ query_id sql params1 _ log) as [[d1|e1] l1];
        destruct (try_body sf environ query_id sql params2 _ log) as [[d2|e2] l2];
        simpl in *; subst; try contradiction; reflexivity.
  - exists []. simpl. rewrite List.app_nil_r. split; [reflexivity|].
    intros s binds [].
Qed.

Lemma sql_text_is_the_fixed_template_witness :
  (exists calls,
     snd (run_saved_query Scenarios.warehouse Scenarios.no_settings
            Scenarios.short_traceback "basic_query"
            (VDict [("month", VInt 1)]) default_max_rows [])
     = [] ++ calls
     /\ forall s binds,
          In (EvExecute s binds) calls -> s = basic_query_sql /\ binds = None)
  /\ snd (run_saved_query Scenarios.warehouse Scenarios.no_settings
            Scenarios.short_traceback "basic_query"
            (VDict [("month", VInt 1)]) default_max_rows [])
     = snd (run_saved_query Scenarios.warehouse Scenarios.no_settings
              Scenarios.short_traceback "basic_query"
              (VDict [("month", VStr "1; DROP TABLE t")]) default_max_rows [])
  /\ _params_for "basic_query" (VDict [("month", VInt 1)]) = None.
Proof.
  apply (sql_text_is_the_fixed_template Scenarios.warehouse
           Scenarios.no_settings Scenarios.short_traceback "basic_query"
           basic_query_sql (VDict [("month", VInt 1)])
           (VDict [("month", VStr "1; DROP TABLE t")]) default_max_rows []).
  reflexivity.
Defined.

(** ** C3: the row limit *)

(** C3. For every integer [max_rows], whatever its sign or size, the limit
    [max(1, min(max_rows, 5000))] lies in [1, 5000]; every [fetchmany] of the
    run asks for exactly that many rows, and a successful response reports it
    as [row_limit]. *)
Theorem row_limit_is_clamped
    (sf : Connector) (environ : gmap string string)
    (format_exc : exn -> list string)
    (query_id : string) (params : value) (z : Z) (log : list event) :
  exists limit,
    limit = Z.max 1 (Z.min z 5000)
    /\ 1 <= limit <= 5000
    /\ (exists calls,
          snd (run_saved_query sf environ format_exc query_id params (VInt z) log)
          = log ++ calls
          /\ forall size, In (EvFetchmany size) calls -> size = limit)
    /\ (forall d,
          fst (run_saved_query sf environ format_exc query_id params (VInt z) log)
          = Return d ->
          dget "ok" d = Some (VBool true) ->
          dget "row_limit" d = Some (VInt limit)).
Proof.
  exists (Z.max 1 (Z.min z 5000)). split; [reflexivity|]. split; [lia|].
  destruct (find_key query_id QUERIES) as [sql|] eqn:Hsql.
  - split.
    + eapply emits_then; [exact (run_emits sf environ format_exc _ _ params z Hsql)|].
      intros calls HP _. exists calls. split; [reflexivity|].
      intros size Hin. rewrite List.Forall_forall in HP. exact (HP _ Hin).
    + intros d.
      rewrite (run_ends sf environ format_exc _ _ params (VInt z) z log Hsql eq_refl).
      cbv zeta.
      destruct (fst (try_body sf environ query_id sql params _ log))
        as [d'|e] eqn:Hbody.
      * simpl. intros [= <-] _.
        apply try_body_returns in Hbody.
        destruct Hbody as (kw & rows & _ & _ & _ & _ & ->). reflexivity.
      * destruct (exc_is_Exception e); simpl; [|discriminate].
        intros [= <-]. discriminate.
  - assert (Hun : contains QUERIES query_id = false)
      by (unfold contains; rewrite Hsql; reflexivity).
    rewrite (run_unknown sf environ format_exc _ params (VInt z) log Hun).
    split.
    + exists []. simpl. rewrite List.app_nil_r. split; [reflexivity|]. intros size [].
    + simpl. intros d [= <-]. discriminate.
Qed.

Lemma row_limit_is_clamped_witness :
  exists d,
    fst (run_saved_query Scenarios.warehouse Scenarios.no_settings
           Scenarios.short_traceback "basic_query" default_params
           (VInt 100000) [])
    = Return d
    /\ dget "row_limit" d = Some (VInt 5000).
Proof.
  destruct (row_limit_is_clamped Scenarios.warehouse Scenarios.no_settings
              Scenarios.short_traceback "basic_query" default_params
              100000 [])
    as (limit & Hlimit & _ & _ & Hreport).
  eexists. split; [reflexivity|].
  rewrite (Hreport _ eq_refl eq_refl), Hlimit. reflexivity.
Defined.

Example row_limit_examples :
  map (fun z =>
         dget "row_limit"
           match fst (run_saved_query Scenarios.warehouse Scenarios.no_settings
                        Scenarios.short_traceback "basic_query" VNone (VInt z) [])
           with Return d => d | Raise _ => [] end)
      [0; -7; 1; 500; 5000; 5001; 100000]
  = map (fun z => Some (VInt z)) [1; 1; 1; 500; 5000; 5000; 5000].
Proof. vm_compute. reflexivity. Qed.

(** ** C4: the shape of a successful response *)




(** ** C5: exceptions inside the [try] *)




(** ** C7: role, database and schema *)

(** C7, amended. [SNOWFLAKE_ROLE], [SNOWFLAKE_DATABASE] and [SNOWFLAKE_SCHEMA]
    are read when [_connect] runs, and each is optional: with an accepted
    authenticator, [_connect] calls the connector whatever they hold, and the
    arguments of that call have ["role"], ["database"] and ["schema"] exactly
    when the variable is set to a text that is not empty; what [_connect]
    ends with is the connector's answer. *)
Theorem connection_settings_are_optional
    (sf : Connector) (environ : gmap string string) (log : list event) :
  default "externalbrowser" (environ !! "SNOWFLAKE_AUTHENTICATOR")
  = "externalbrowser" ->
  exists kwargs,
    _connect sf environ log
    = (failing (connect_raises sf log kwargs), log ++ [EvConnect kwargs])
    /\ forall key var,
         In (key, var) [ ("role", "SNOWFLAKE_ROLE");
                         ("database", "SNOWFLAKE_DATABASE");
                         ("schema", "SNOWFLAKE_SCHEMA") ] ->
         dget key kwargs
         = match environ !! var with
           | Some v => if is_empty v then None else Some (VStr v)
           | None => None
           end.
Proof.
  intros Hauth. exists (conn_kwargs environ "externalbrowser"). split.
  - rewrite connect_cases. cbv zeta. rewrite Hauth. reflexivity.
  - intros key var Hin. unfold conn_kwargs, environ_get.
    simpl in Hin.
    destruct Hin as [[= <- <-]|[[= <- <-]|[[= <- <-]|[]]]];
      destruct (environ !! "SNOWFLAKE_ROLE") as [[|c1 r1]|];
      destruct (environ !! "SNOWFLAKE_DATABASE") as [[|c2 r2]|];
      destruct (environ !! "SNOWFLAKE_SCHEMA") as [[|c3 r3]|];
      reflexivity.
Qed.

Lemma connection_settings_are_optional_witness :
  exists kwargs,
    _connect Scenarios.warehouse Scenarios.reader_settings []
    = (Return tt, [EvConnect kwargs])
    /\ dget "role" kwargs = Some (VStr "READER")
    /\ dget "database" kwargs = None
    /\ dget "schema" kwargs = None.
Proof.
  destruct (connection_settings_are_optional Scenarios.warehouse
              Scenarios.reader_settings [] eq_refl) as [kwargs [Hrun Hget]].
  exists kwargs. split; [exact Hrun|]. split; [|split].
  - exact (Hget "role" "SNOWFLAKE_ROLE" (or_introl eq_refl)).
  - exact (Hget "database" "SNOWFLAKE_DATABASE" (or_intror (or_introl eq_refl))).
  - exact (Hget "schema" "SNOWFLAKE_SCHEMA"
             (or_intror (or_intror (or_introl eq_refl)))).
Defined.

(** C7 as it is stated fails: with none of the three variables set, the
    first use of the query connects without them and succeeds. *)
Lemma missing_settings_are_not_an_error :
  Scenarios.no_settings !! "SNOWFLAKE_ROLE" = None
  /\ Scenarios.no_settings !! "SNOWFLAKE_DATABASE" = None
  /\ Scenarios.no_settings !! "SNOWFLAKE_SCHEMA" = None
  /\ run_saved_query Scenarios.warehouse Scenarios.no_settings
       Scenarios.short_traceback "basic_query" default_params
       default_max_rows []
     = (Return Scenarios.session_response,
        [ EvConnect
            [ ("account", VStr "uipath_observability.west-europe.azure");
              ("user", VStr "anurag.krishna@uipath.com");
              ("warehouse", VStr "PROD_CUSTOMER_READ");
              ("authenticator", VStr "externalbrowser");
              ("client_session_keep_alive", VBool true) ];
          EvCursor;
          EvExecute basic_query_sql None;
          EvFetchmany 500;
          EvCursorExit;
          EvConnExit ]).
Proof. repeat split. Qed.

(** [_require_env], which no path of the server calls, is where a missing or
    empty variable would be an error. *)
Lemma require_env_spec (environ : gmap string string) (var : string) :
  _require_env environ var
  = match environ !! var with
    | Some (String c r) => Return (String c r)
    | _ => Raise (KeyError ("Missing required environment variable: " +:+ var))
    end.
Proof.
  unfold _require_env. destruct (environ !! var) as [[|c r]|]; reflexivity.
Qed.

(** ** C10: the membership test comes first *)

(** C10. The membership test on [query_id] comes before [int(max_rows)], and
    that conversion is outside the [try]: for an unknown [query_id] the
    failure response is returned whatever [params] and [max_rows] are, with
    no call made; for a whitelisted [query_id] an exception of [int(max_rows)]
    leaves [run_saved_query] as it is, before any call, although it derives
    from [Exception]; and there is such a [max_rows] ([None], for one). *)
Theorem membership_test_precedes_int_conversion :
  (forall (sf : Connector) (environ : gmap string string)
          (format_exc : exn -> list string)
          (query_id : string) (params max_rows : value) (log : list event),
     ~ In query_id (keys QUERIES) ->
     exists d,
       run_saved_query sf environ format_exc query_id params max_rows log
       = (Return d, log)
       /\ dget "ok" d = Some (VBool false)
       /\ dget "error" d = Some (VStr ("Unknown query_id '" +:+ query_id +:+ "'")))
  /\ (forall (sf : Connector) (environ : gmap string string)
             (format_exc : exn -> list string)
             (query_id : string) (params max_rows : value) (e : exn)
             (log : list event),
        In query_id (keys QUERIES) ->
        int max_rows = Raise e ->
        run_saved_query sf environ format_exc query_id params max_rows log
        = (Raise e, log))
  /\ (exists e, int VNone = Raise e /\ exc_is_Exception e = true).
Proof.
  split; [|split].
  - intros sf environ format_exc query_id params max_rows log Hnot.
    eexists. split.
    { apply run_unknown.
      destruct (contains QUERIES query_id) eqn:E; [|reflexivity].
      exfalso. apply Hnot. apply contains_In. exact E. }
    split; reflexivity.
  - intros sf environ format_exc query_id params max_rows e log Hin Hint.
    apply contains_In, contains_find in Hin. destruct Hin as [sql Hsql].
    rewrite (run_whitelisted _ _ _ _ _ _ _ _ Hsql), Hint. reflexivity.
  - eexists. split; reflexivity.
Qed.

Lemma membership_test_precedes_int_conversion_witness :
  (exists d,
     run_saved_query Scenarios.warehouse Scenarios.no_settings
       Scenarios.short_traceback "does_not_exist" (VInt 7) (VStr "many") []
     = (Return d, [])
     /\ dget "ok" d = Some (VBool false)
     /\ dget "error" d = Some (VStr "Unknown query_id 'does_not_exist'"))
  /\ run_saved_query Scenarios.warehouse Scenarios.no_settings
       Scenarios.short_traceback "basic_query" VNone (VStr "many") []
     = (Raise (ValueError "invalid literal for int() with base 10: 'many'"), []).
Proof.
  split.
  - apply (proj1 membership_test_precedes_int_conversion).
    simpl. intros [H|[]]. discriminate H.
  - apply (proj1 (proj2 membership_test_precedes_int_conversion)).
    + left. reflexivity.
    + reflexivity.
Defined.

(* ===================================================================== *)
(** * Properties of the harness reader                                     *)
(* ===================================================================== *)

Section ReaderFacts.

Variable message : Type.
Variable json_loads : Harness.text -> option message.

(** One turn of the loop. *)
Lemma read_loop_unfold (pipe : string) (console : list Harness.text) :
  Harness.read_loop message json_loads pipe console
  = match Harness.iterate message json_loads (fst (Harness.readline pipe)) with
    | Harness.Stop r => (r, (snd (Harness.readline pipe), console))
    | Harness.Continue line =>
        Harness.read_loop message json_loads (snd (Harness.readline pipe))
          (console ++ [Harness.text_of "Non-JSON output: " ++ line])
    end.
Proof.
  funelim (Harness.read_loop message json_loads pipe console);
    rewrite Hread; simpl;
    match goal with
    | H : Harness.iterate _ _ _ = _ |- _ => rewrite H
    end; reflexivity.
Qed.

(** At the end of the stream the reader returns [None]. *)
Lemma read_at_end_of_stream (console : list Harness.text) :
  Harness.read_rpc_response message json_loads "" console
  = (Harness.NoMoreOutput, ("", console)).
Proof. unfold Harness.read_rpc_response. rewrite read_loop_unfold. reflexivity. Qed.

(** A line that is text but no JSON is printed and passed over. *)
Lemma non_json_line_is_skipped (pipe : string) (console : list Harness.text)
    (t : Harness.text) (c : N) (line : Harness.text) :
  Harness.decode (fst (Harness.readline pipe)) = Some t ->
  Harness.strip t = c :: line ->
  json_loads (c :: line) = None ->
  Harness.read_rpc_response message json_loads pipe console
  = Harness.read_rpc_response message json_loads (snd (Harness.readline pipe))
      (console ++ [Harness.text_of "Non-JSON output: " ++ c :: line]).
Proof.
  intros Hdec Hstrip Hjson. unfold Harness.read_rpc_response.
  rewrite read_loop_unfold at 1. unfold Harness.iterate.
  rewrite Hdec, Hstrip, Hjson. reflexivity.
Qed.

(** A line that parses is returned, and what follows stays in the pipe. *)
Lemma json_line_is_returned (pipe : string) (console : list Harness.text)
    (t : Harness.text) (c : N) (line : Harness.text) (m : message) :
  Harness.decode (fst (Harness.readline pipe)) = Some t ->
  Harness.strip t = c :: line ->
  json_loads (c :: line) = Some m ->
  Harness.read_rpc_response message json_loads pipe console
  = (Harness.Parsed m, (snd (Harness.readline pipe), console)).
Proof.
  intros Hdec Hstrip Hjson. unfold Harness.read_rpc_response.
  rewrite read_loop_unfold. unfold Harness.iterate.
  rewrite Hdec, Hstrip, Hjson. reflexivity.
Qed.

(** A line of white space alone ends the read, wherever it stands. *)
Lemma blank_line_is_taken_for_the_end (pipe : string)
    (console : list Harness.text) (t : Harness.text) :
  Harness.decode (fst (Harness.readline pipe)) = Some t ->
  Harness.strip t = [] ->
  Harness.read_rpc_response message json_loads pipe console
  = (Harness.NoMoreOutput, (snd (Harness.readline pipe), console)).
Proof.
  intros Hdec Hstrip. unfold Harness.read_rpc_response.
  rewrite read_loop_unfold. unfold Harness.iterate.
  rewrite Hdec, Hstrip. reflexivity.
Qed.

(** A line that is not UTF-8 makes the reader raise. *)
Lemma undecodable_line_raises (pipe : string) (console : list Harness.text) :
  Harness.decode (fst (Harness.readline pipe)) = None ->
  Harness.read_rpc_response message json_loads pipe console
  = (Harness.RaisesUnicodeDecodeError, (snd (Harness.readline pipe), console)).
Proof.
  intros Hdec. unfold Harness.read_rpc_response.
  rewrite read_loop_unfold. unfold Harness.iterate.
  rewrite Hdec. reflexivity.
Qed.

End ReaderFacts.

(** ** C9: the reader and blank lines *)

(** C9 at its failing input: when the pipe holds an empty line followed by
    anything at all, [read_rpc_response] returns [None] at once; what follows
    the empty line, a well-formed message included, stays unread, although
    the stream is not at its end. *)
Theorem blank_line_ends_the_read
    (message : Type) (json_loads : Harness.text -> option message)
    (rest : string) (console : list Harness.text) :
  Harness.read_rpc_response message json_loads
    (String Harness.newline rest) console
  = (Harness.NoMoreOutput, (rest, console)).
Proof.
  unfold Harness.read_rpc_response. rewrite read_loop_unfold. reflexivity.
Qed.

Example reader_examples :
  let nl := String Harness.newline "" in
  Harness.read_rpc_response _ Scenarios.braced ("{}" +:+ nl) []
  = (Harness.Parsed [123; 125]%N, ("", []))
  /\ Harness.read_rpc_response _ Scenarios.braced
       ("starting" +:+ nl +:+ "{}" +:+ nl) []
     = (Harness.Parsed [123; 125]%N,
        ("", [Harness.text_of "Non-JSON output: starting"]))
  /\ Harness.read_rpc_response _ Scenarios.braced (nl +:+ "{}" +:+ nl) []
     = (Harness.NoMoreOutput, ("{}" +:+ nl, []))
  /\ Harness.read_rpc_response _ Scenarios.braced
       (String (ascii_of_nat 255) ("{}" +:+ nl)) []
     = (Harness.RaisesUnicodeDecodeError, ("", [])).
Proof. repeat split. Qed.

(* ===================================================================== *)
(** * Further properties of the server                                     *)
(* ===================================================================== *)

(** ** More on [strip] *)

Section StripMore.

Variable sp : ascii -> bool.








End StripMore.

Lemma contains_char_append (c : ascii) (a b : string) :
  contains_char c (a +:+ b) = contains_char c a || contains_char c b.
Proof.
  induction a as [|d a IH]; simpl; [reflexivity|].
  rewrite IH. apply orb_assoc.
Qed.

Lemma last_char_append (a : string) (c : ascii) :
  last_char (a +:+ String c EmptyString) = Some c.
Proof.
  induction a as [|d a IH]; simpl; [reflexivity|].
  rewrite IH. destruct (a +:+ String c EmptyString) eqn:E; [|reflexivity].
  destruct a; discriminate E.
Qed.


(** ** The filter pattern *)








(** ** The connection arguments *)

Lemma conn_kwargs_sso (environ : gmap string string) :
  dget "password" (conn_kwargs environ "externalbrowser") = None
  /\ dget "account" (conn_kwargs environ "externalbrowser")
     = Some (VStr "uipath_observability.west-europe.azure")
  /\ dget "user" (conn_kwargs environ "externalbrowser")
     = Some (VStr "anurag.krishna@uipath.com")
  /\ dget "warehouse" (conn_kwargs environ "externalbrowser")
     = Some (VStr "PROD_CUSTOMER_READ")
  /\ dget "authenticator" (conn_kwargs environ "externalbrowser")
     = Some (VStr "externalbrowser")
  /\ dget "client_session_keep_alive" (conn_kwargs environ "externalbrowser")
     = Some (VBool true)
  /\ Forall (fun kv => truthy (snd kv) = true)
            (conn_kwargs environ "externalbrowser")
  /\ Forall (fun kv =>
               In (fst kv)
                  ["account"; "user"; "warehouse"; "role"; "database";
                   "schema"; "authenticator"; "client_session_keep_alive"])
            (conn_kwargs environ "externalbrowser").
Proof.
  unfold conn_kwargs, environ_get.
  destruct (environ !! "SNOWFLAKE_ROLE") as [[|c1 r1]|];
    destruct (environ !! "SNOWFLAKE_DATABASE") as [[|c2 r2]|];
    destruct (environ !! "SNOWFLAKE_SCHEMA") as [[|c3 r3]|];
    repeat (split; [reflexivity|]);
    split;
    repeat (constructor;
            [simpl; repeat (first [left; reflexivity | right]); reflexivity|]);
    constructor.
Qed.

(** Whatever the environment holds, [_connect] either refuses the
    authenticator without a call, or makes one call to the connector whose
    arguments name the fixed account, user and warehouse, the
    [externalbrowser] authenticator and the keep-alive flag, never a
    password, never a key outside the eight of the source, and hold no
    [None] or empty value. *)
Theorem connect_arguments_are_sso_only
    (sf : Connector) (environ : gmap string string) (log : list event) :
  (exists v,
     environ !! "SNOWFLAKE_AUTHENTICATOR" = Some v
     /\ String.eqb v "externalbrowser" = false
     /\ snd (_connect sf environ log) = log)
  \/ (exists kwargs,
        snd (_connect sf environ log) = log ++ [EvConnect kwargs]
        /\ dget "password" kwargs = None
        /\ dget "account" kwargs
           = Some (VStr "uipath_observability.west-europe.azure")
        /\ dget "user" kwargs = Some (VStr "anurag.krishna@uipath.com")
        /\ dget "warehouse" kwargs = Some (VStr "PROD_CUSTOMER_READ")
        /\ dget "authenticator" kwargs = Some (VStr "externalbrowser")
        /\ dget "client_session_keep_alive" kwargs = Some (VBool true)
        /\ Forall (fun kv => truthy (snd kv) = true) kwargs
        /\ Forall (fun kv =>
                     In (fst kv)
                        ["account"; "user"; "warehouse"; "role"; "database";
                         "schema"; "authenticator"; "client_session_keep_alive"])
                  kwargs).
Proof.
  rewrite connect_cases. cbv zeta.
  destruct (environ !! "SNOWFLAKE_AUTHENTICATOR") as [v|] eqn:Hv.
  - change (default "externalbrowser" (Some v)) with v.
    destruct (String.eqb v "externalbrowser") eqn:E.
    + right. apply String.eqb_eq in E. subst v.
      exists (conn_kwargs environ "externalbrowser").
      split; [reflexivity | apply conn_kwargs_sso].
    + left. exists v. auto.
  - right. exists (conn_kwargs environ "externalbrowser").
    split; [reflexivity | apply conn_kwargs_sso].
Qed.

(** A setting reaches the connection arguments exactly when [_require_env]
    would accept it, and with the value [_require_env] would return: both
    take an empty value for a missing one. *)
Theorem connect_keeps_what_require_env_accepts
    (environ : gmap string string) (authenticator key var : string) :
  In (key, var) [ ("role", "SNOWFLAKE_ROLE");
                  ("database", "SNOWFLAKE_DATABASE");
                  ("schema", "SNOWFLAKE_SCHEMA") ] ->
  dget key (conn_kwargs environ authenticator)
  = match _require_env environ var with
    | Return v => Some (VStr v)
    | Raise _ => None
    end.
Proof.
  intros Hin. unfold conn_kwargs, environ_get, _require_env. simpl in Hin.
  destruct Hin as [[= <- <-]|[[= <- <-]|[[= <- <-]|[]]]];
    destruct authenticator;
    destruct (environ !! "SNOWFLAKE_ROLE") as [[|c1 r1]|];
    destruct (environ !! "SNOWFLAKE_DATABASE") as [[|c2 r2]|];
    destruct (environ !! "SNOWFLAKE_SCHEMA") as [[|c3 r3]|];
    reflexivity.
Qed.

Lemma connect_keeps_what_require_env_accepts_witness :
  dget "role" (conn_kwargs Scenarios.reader_settings "externalbrowser")
  = Some (VStr "READER")
  /\ dget "database" (conn_kwargs Scenarios.reader_settings "externalbrowser")
     = None.
Proof.
  split.
  - exact (connect_keeps_what_require_env_accepts Scenarios.reader_settings
             "externalbrowser" "role" "SNOWFLAKE_ROLE" (or_introl eq_refl)).
  - exact (connect_keeps_what_require_env_accepts Scenarios.reader_settings
             "externalbrowser" "database" "SNOWFLAKE_DATABASE"
             (or_intror (or_introl eq_refl))).
Defined.

(** ** The calls of a run, in order *)

Section Protocol.

Variable sf : Connector.
Variable environ : gmap string string.
Variable format_exc : exn -> list string.



End Protocol.



(** ** How failures are reported *)

(** A refused authenticator reaches the caller of the tool as a response,
    not as an exception: for a whitelisted [query_id] and a [max_rows] that
    [int()] converts, with [SNOWFLAKE_AUTHENTICATOR] set to anything but
    ["externalbrowser"], [run_saved_query] returns the failure response of
    the [ValueError] that [_connect] raised, and the warehouse is not
    called. *)
Theorem refused_authenticator_is_reported
    (sf : Connector) (environ : gmap string string)
    (format_exc : exn -> list string)
    (query_id sql v : string) (params max_rows : value) (n : Z)
    (log : list event) :
  getitem QUERIES query_id = Return sql ->
  int max_rows = Return n ->
  environ !! "SNOWFLAKE_AUTHENTICATOR" = Some v ->
  v <> "externalbrowser" ->
  exists e,
    e = ValueError
          ("SSO-only server: SNOWFLAKE_AUTHENTICATOR must be 'externalbrowser' (got '"
             +:+ v +:+ "')")
    /\ run_saved_query sf environ format_exc query_id params max_rows log
       = (Return [ ("ok", VBool false);
                   ("query_id", VStr query_id);
                   ("error_type", VStr "ValueError");
                   ("error", VStr (exc_text e));
                   ("traceback_tail",
                    VList (map VStr (last_lines 20 (format_exc e)))) ],
          log).
Proof.
  intros Hsql Hint Hv Hne. apply getitem_find in Hsql.
  eexists. split; [reflexivity|].
  rewrite (run_ends _ _ _ _ _ _ _ _ _ Hsql Hint). cbv zeta.
  unfold try_body, with_. rewrite connect_cases. cbv zeta. rewrite Hv.
  change (default "externalbrowser" (Some v)) with v.
  apply String.eqb_neq in Hne. rewrite Hne. reflexivity.
Qed.

Lemma refused_authenticator_is_reported_witness :
  exists e,
    e = ValueError
          "SSO-only server: SNOWFLAKE_AUTHENTICATOR must be 'externalbrowser' (got 'password')"
    /\ run_saved_query Scenarios.warehouse Scenarios.password_login
         Scenarios.short_traceback "basic_query" default_params
         default_max_rows []
       = (Return [ ("ok", VBool false);
                   ("query_id", VStr "basic_query");
                   ("error_type", VStr "ValueError");
                   ("error", VStr (exc_text e));
                   ("traceback_tail",
                    VList (map VStr
                      (last_lines 20 (Scenarios.short_traceback e)))) ],
          []).
Proof.
  apply (refused_authenticator_is_reported Scenarios.warehouse
           Scenarios.password_login Scenarios.short_traceback "basic_query"
           basic_query_sql "password" default_params default_max_rows 500 []).
  - reflexivity.
  - reflexivity.
  - reflexivity.
  - discriminate.
Defined.

(** A statement the warehouse refuses: when [connect] and [cursor] are
    answered, [execute] raises an [e] that derives from [Exception], and the
    two releases raise nothing, [run_saved_query] returns the failure
    response of [e]; nothing is fetched, and cursor and connection are
    released in that order. *)
Theorem refused_statement_is_reported
    (sf : Connector) (environ : gmap string string)
    (format_exc : exn -> list string)
    (query_id sql : string) (params max_rows : value) (n : Z) (e : exn)
    (log : list event) :
  getitem QUERIES query_id = Return sql ->
  int max_rows = Return n ->
  default "externalbrowser" (environ !! "SNOWFLAKE_AUTHENTICATOR")
  = "externalbrowser" ->
  let kwargs := conn_kwargs environ "externalbrowser" in
  connect_raises sf log kwargs = None ->
  cursor_raises sf (log ++ [EvConnect kwargs]) = None ->
  execute_raises sf (log ++ [EvConnect kwargs; EvCursor]) sql None = Some e ->
  exc_is_Exception e = true ->
  cursor_exit_raises sf
    (log ++ [EvConnect kwargs; EvCursor; EvExecute sql None]) (Some e) = None ->
  conn_exit_raises sf
    (log ++ [EvConnect kwargs; EvCursor; EvExecute sql None; EvCursorExit])
    (Some e) = None ->
  run_saved_query sf environ format_exc query_id params max_rows log
  = (Return [ ("ok", VBool false);
              ("query_id", VStr query_id);
              ("error_type", VStr (exc_class e));
              ("error", VStr (exc_text e));
              ("traceback_tail",
               VList (map VStr (last_lines 20 (format_exc e)))) ],
     log ++ [EvConnect kwargs; EvCursor; EvExecute sql None;
             EvCursorExit; EvConnExit]).
Proof.
  intros Hsql Hint Hauth kwargs Hconn Hcur Hexe Hexc Hcx Hnx.
  apply getitem_find in Hsql. subst kwargs.
  rewrite (run_ends _ _ _ _ _ _ _ _ _ Hsql Hint). cbv zeta.
  unfold try_body, with_, bind, conn_cursor, cur_execute, cur_exit, conn_exit,
    call.
  rewrite connect_cases. cbv zeta. rewrite Hauth.
  change (String.eqb "externalbrowser" "externalbrowser") with true.
  cbv beta iota. rewrite Hconn. cbn [failing]. cbv beta iota.
  rewrite Hcur. cbn [failing]. cbv beta iota.
  repeat rewrite <- List.app_assoc. cbn [app].
  rewrite Hexe. cbn [failing]. cbv beta iota.
  repeat rewrite <- List.app_assoc. cbn [app].
  rewrite Hcx. cbn [failing]. cbv beta iota.
  repeat rewrite <- List.app_assoc. cbn [app].
  rewrite Hnx. cbn [failing fst snd]. cbv beta iota.
  rewrite Hexc. repeat rewrite <- List.app_assoc. reflexivity.
Qed.

Lemma refused_statement_is_reported_witness :
  run_saved_query (Scenarios.rejecting Scenarios.ProgrammingError)
    Scenarios.no_settings Scenarios.short_traceback "basic_query"
    default_params default_max_rows []
  = (Return [ ("ok", VBool false);
              ("query_id", VStr "basic_query");
              ("error_type", VStr "ProgrammingError");
              ("error", VStr "001003 (42000): SQL compilation error");
              ("traceback_tail",
               VList (map VStr
                 (last_lines 20
                    (Scenarios.short_traceback Scenarios.ProgrammingError)))) ],
     [] ++ [EvConnect (conn_kwargs Scenarios.no_settings "externalbrowser");
            EvCursor; EvExecute basic_query_sql None;
            EvCursorExit; EvConnExit]).
Proof.
  apply (refused_statement_is_reported
           (Scenarios.rejecting Scenarios.ProgrammingError)
           Scenarios.no_settings Scenarios.short_traceback "basic_query"
           basic_query_sql default_params default_max_rows 500
           Scenarios.ProgrammingError []); reflexivity.
Defined.

(** ** The shape of every response *)

(** Every response of [run_saved_query] carries a boolean ["ok"]: when it is
    true the response echoes [query_id] and has no ["error"]; when it is
    false the response has an ["error"] text. A caller can branch on ["ok"]
    and read ["error"] without a lookup failing. *)
Theorem response_has_ok_and_error
    (sf : Connector) (environ : gmap string string)
    (format_exc : exn -> list string)
    (query_id : string) (params max_rows : value) (log : list event)
    (d : dict) :
  fst (run_saved_query sf environ format_exc query_id params max_rows log)
  = Return d ->
  (dget "ok" d = Some (VBool true)
   /\ dget "query_id" d = Some (VStr query_id)
   /\ dget "error" d = None)
  \/ (dget "ok" d = Some (VBool false)
      /\ exists msg, dget "error" d = Some (VStr msg)).
Proof.
  intros Hrun.
  destruct (find_key query_id QUERIES) as [sql|] eqn:Hsql.
  - rewrite (run_whitelisted _ _ _ _ _ _ _ _ Hsql) in Hrun.
    destruct (int max_rows) as [n|e] eqn:Hint; [|discriminate Hrun].
    unfold try_except in Hrun.
    destruct (try_body sf environ query_id sql params _ log) as [[d'|e] log']
      eqn:Hbody.
    + simpl in Hrun. injection Hrun as ->.
      assert (Hfst : fst (try_body sf environ query_id sql params
                            (Z.max 1 (Z.min n 5000)) log) = Return d)
        by (rewrite Hbody; reflexivity).
      apply try_body_returns in Hfst.
      destruct Hfst as (kw & rows & _ & _ & _ & _ & ->).
      left. repeat split.
    + destruct (exc_is_Exception e); simpl in Hrun; [|discriminate Hrun].
      injection Hrun as <-. right. split; [reflexivity|]. eexists. reflexivity.
  - assert (Hun : contains QUERIES query_id = false)
      by (unfold contains; rewrite Hsql; reflexivity).
    rewrite (run_unknown _ _ _ _ _ _ _ Hun) in Hrun.
    injection Hrun as <-. right. split; [reflexivity|]. eexists. reflexivity.
Qed.

Lemma response_has_ok_and_error_witness :
  (dget "ok" Scenarios.session_response = Some (VBool true)
   /\ dget "query_id" Scenarios.session_response = Some (VStr "basic_query")
   /\ dget "error" Scenarios.session_response = None)
  \/ (dget "ok" Scenarios.session_response = Some (VBool false)
      /\ exists msg, dget "error" Scenarios.session_response = Some (VStr msg)).
Proof.
  exact (response_has_ok_and_error Scenarios.warehouse Scenarios.no_settings
           Scenarios.short_traceback "basic_query" default_params
           default_max_rows [] Scenarios.session_response eq_refl).
Defined.

(** ** A row limit within the bounds *)

(** A [max_rows] between 1 and 5000 is used as it is: for a whitelisted
    [query_id], every [fetchmany] of the run asks for [max_rows] rows, and a
    successful response reports [max_rows] as [row_limit]. *)
Theorem row_limit_within_bounds_is_kept
    (sf : Connector) (environ : gmap string string)
    (format_exc : exn -> list string)
    (query_id sql : string) (params : value) (z : Z) (log : list event) :
  getitem QUERIES query_id = Return sql ->
  1 <= z <= 5000 ->
  (exists calls,
     snd (run_saved_query sf environ format_exc query_id params (VInt z) log)
     = log ++ calls
     /\ forall size, In (EvFetchmany size) calls -> size = z)
  /\ (forall d,
        fst (run_saved_query sf environ format_exc query_id params (VInt z) log)
        = Return d ->
        dget "ok" d = Some (VBool true) ->
        dget "row_limit" d = Some (VInt z)).
Proof.
  intros Hsql Hz. apply getitem_find in Hsql.
  assert (Hlimit : Z.max 1 (Z.min z 5000) = z) by lia.
  split.
  - eapply emits_then; [exact (run_emits sf environ format_exc _ _ params z Hsql)|].
    intros calls HP _. exists calls. split; [reflexivity|].
    intros size Hin. rewrite List.Forall_forall in HP.
    rewrite <- Hlimit. exact (HP _ Hin).
  - intros d.
    rewrite (run_ends sf environ format_exc _ _ params (VInt z) z log Hsql eq_refl).
    cbv zeta. rewrite Hlimit.
    destruct (fst (try_body sf environ query_id sql params z log))
      as [d'|e] eqn:Hbody.
    + simpl. intros [= <-] _.
      apply try_body_returns in Hbody.
      destruct Hbody as (kw & rows & _ & _ & _ & _ & ->). reflexivity.
    + destruct (exc_is_Exception e); simpl; [|discriminate].
      intros [= <-]. discriminate.
Qed.

Lemma row_limit_within_bounds_is_kept_witness :
  exists d,
    fst (run_saved_query Scenarios.warehouse Scenarios.no_settings
           Scenarios.short_traceback "basic_query" default_params (VInt 25) [])
    = Return d
    /\ dget "row_limit" d = Some (VInt 25).
Proof.
  destruct (row_limit_within_bounds_is_kept Scenarios.warehouse
              Scenarios.no_settings Scenarios.short_traceback "basic_query"
              basic_query_sql default_params 25 [] eq_refl)
    as [_ Hreport]; [lia|].
  eexists. split; [reflexivity|]. exact (Hreport _ eq_refl eq_refl).
Defined.

(** ** [list_saved_queries] and [run_saved_query] *)

(** The two tools agree on the whitelist: [list_saved_queries] lists, in
    sorted order, exactly the identifiers [run_saved_query] does not reject as
    unknown; a response to a listed identifier never has the key
    ["allowed"], and the response to any other one has the list of
    [list_saved_queries] under it. *)
Theorem listed_queries_are_the_accepted_ones :
  exists queries,
    dget "queries" list_saved_queries = Some (VList (map VStr queries))
    /\ Sorted str_le queries
    /\ (forall (sf : Connector) (environ : gmap string string)
               (format_exc : exn -> list string)
               (query_id : string) (params max_rows : value)
               (log : list event),
          (In query_id queries ->
           forall d,
             fst (run_saved_query sf environ format_exc query_id params
                    max_rows log) = Return d ->
             dget "allowed" d = None)
          /\ (~ In query_id queries ->
              exists d,
                run_saved_query sf environ format_exc query_id params
                  max_rows log = (Return d, log)
                /\ dget "ok" d = Some (VBool false)
                /\ dget "allowed" d = Some (VList (map VStr queries)))).
Proof.
  exists (sorted (keys QUERIES)). split; [reflexivity|].
  split; [apply sorted_sorted|].
  intros sf environ format_exc query_id params max_rows log. split.
  - intros Hin d Hrun.
    apply (Permutation_in _ (sorted_perm (keys QUERIES))) in Hin.
    apply contains_In, contains_find in Hin. destruct Hin as [sql Hsql].
    rewrite (run_whitelisted _ _ _ _ _ _ _ _ Hsql) in Hrun.
    destruct (int max_rows) as [n|e]; [|discriminate Hrun].
    unfold try_except in Hrun.
    destruct (try_body sf environ query_id sql params _ log) as [[d'|e] log']
      eqn:Hbody.
    + simpl in Hrun. injection Hrun as ->.
      assert (Hfst : fst (try_body sf environ query_id sql params
                            (Z.max 1 (Z.min n 5000)) log) = Return d)
        by (rewrite Hbody; reflexivity).
      apply try_body_returns in Hfst.
      destruct Hfst as (kw & rows & _ & _ & _ & _ & ->). reflexivity.
    + destruct (exc_is_Exception e); simpl in Hrun; [|discriminate Hrun].
      injection Hrun as <-. reflexivity.
  - intros Hnot. eexists. split.
    { apply run_unknown.
      destruct (contains QUERIES query_id) eqn:E; [|reflexivity].
      exfalso. apply Hnot.
      apply (Permutation_in _ (Permutation_sym (sorted_perm (keys QUERIES)))).
      apply contains_In. exact E. }
    split; reflexivity.
Qed.

(** ** The request of the harness *)

(** The [tools/call] request that [main] sends asks for the query
    ["connector_usage"], which [QUERIES] does not hold: whatever the
    environment and the warehouse, the server answers it with the
    unknown-query failure, and the warehouse is not called. *)
Theorem harness_query_is_unknown
    (sf : Connector) (environ : gmap string string)
    (format_exc : exn -> list string) (log : list event) :
  run_saved_query sf environ format_exc Main.query_id Main.params
    default_max_rows log
  = (Return [ ("ok", VBool false);
              ("error", VStr "Unknown query_id 'connector_usage'");
              ("allowed", VList [VStr "basic_query"]) ],
     log).
Proof. apply run_unknown. reflexivity. Qed.

(* ===================================================================== *)
(** * Further properties of the harness                                    *)
(* ===================================================================== *)

(** ** UTF-8: decoding what was encoded *)

Ltac Zify.zify_post_hook ::= Z.to_euclidean_division_equations.

Ltac decide_test b :=
  first
    [ assert (b = true) as ->
        by (rewrite ?Bool.andb_true_iff, ?N.leb_le, ?N.ltb_lt, ?N.eqb_eq; lia)
    | assert (b = false) as ->
        by (rewrite ?Bool.andb_false_iff, ?N.leb_gt, ?N.ltb_ge, ?N.eqb_neq; lia) ].

Ltac decide_tests :=
  repeat match goal with
         | |- context [if ?b then _ else _] => decide_test b; cbv beta iota
         end.

Lemma decode_encode_point (c : N) (bs rest : list N) :
  Harness.encode_point c = Some bs ->
  Harness.decode_bytes (bs ++ rest)
  = option_map (cons c) (Harness.decode_bytes rest).
Proof.
  unfold Harness.encode_point.
  destruct (N.ltb_spec c 0x80) as [H1|H1].
  { intros [= <-]. cbn [app Harness.decode_bytes]. decide_tests. reflexivity. }
  destruct (N.ltb_spec c 0x800) as [H2|H2].
  { intros [= <-]. cbn [app Harness.decode_bytes].
    unfold Harness.is_cont, Harness.low6. decide_tests.
    do 2 f_equal. lia. }
  destruct (N.ltb_spec c 0x10000) as [H3|H3].
  { destruct ((0xD800 <=? c) && (c <=? 0xDFFF))%N eqn:Hsur; [discriminate|].
    apply Bool.andb_false_iff in Hsur. rewrite N.leb_gt, N.leb_gt in Hsur.
    intros [= <-]. cbn [app Harness.decode_bytes].
    unfold Harness.second_of_3, Harness.is_cont, Harness.low6.
    destruct (N.eqb_spec (0xE0 + c / 4096) 0xE0) as [E0|E0];
      [|destruct (N.eqb_spec (0xE0 + c / 4096) 0xED) as [ED|ED]];
      decide_tests; do 2 f_equal; lia. }
  destruct (N.ltb_spec c 0x110000) as [H4|H4]; [|discriminate].
  intros [= <-]. cbn [app Harness.decode_bytes].
  unfold Harness.second_of_4, Harness.is_cont, Harness.low6.
  destruct (N.eqb_spec (0xF0 + c / 262144) 0xF0) as [F0|F0];
    [|destruct (N.eqb_spec (0xF0 + c / 262144) 0xF4) as [F4|F4]];
    decide_tests; do 2 f_equal; lia.
Qed.

Lemma encode_point_bytes (c : N) (bs : list N) :
  Harness.encode_point c = Some bs -> Forall (fun b => (b < 256)%N) bs.
Proof.
  unfold Harness.encode_point.
  destruct (N.ltb_spec c 0x80); [intros [= <-]; repeat constructor; lia|].
  destruct (N.ltb_spec c 0x800); [intros [= <-]; repeat constructor; lia|].
  destruct (N.ltb_spec c 0x10000).
  { destruct (_ && _); [discriminate|].
    intros [= <-]; repeat constructor; lia. }
  destruct (N.ltb_spec c 0x110000); [|discriminate].
  intros [= <-]; repeat constructor; lia.
Qed.

Lemma decode_encode_points (t : Harness.text) (bs : list N) :
  Harness.encode_points t = Some bs ->
  Harness.decode_bytes bs = Some t /\ Forall (fun b => (b < 256)%N) bs.
Proof.
  revert bs. induction t as [|c r IH]; simpl; intros bs.
  - intros [= <-]. split; [reflexivity | constructor].
  - destruct (Harness.encode_point c) as [cs|] eqn:Hc; [|discriminate].
    destruct (Harness.encode_points r) as [rs|]; [|discriminate].
    intros [= <-]. destruct (IH rs eq_refl) as [Hdec Hlt]. split.
    + rewrite (decode_encode_point c cs rs Hc), Hdec. reflexivity.
    + apply Forall_app. split; [exact (encode_point_bytes c cs Hc) | exact Hlt].
Qed.

Lemma bytes_of_back (bs : list N) :
  Forall (fun b => (b < 256)%N) bs ->
  map N_of_ascii (list_ascii_of_string (Harness.bytes_of bs)) = bs.
Proof.
  unfold Harness.bytes_of. rewrite list_ascii_of_string_of_list_ascii.
  induction 1 as [|b r Hb _ IH]; simpl; [reflexivity|].
  rewrite IH, (N_ascii_embedding b Hb). reflexivity.
Qed.

(** What [str.encode('utf-8')] produces, [bytes.decode('utf-8')] reads back:
    the bytes [send_rpc_message] writes for a text decode to that text. *)
Lemma decode_encode (t : Harness.text) (data : string) :
  Harness.encode t = Some data -> Harness.decode data = Some t.
Proof.
  unfold Harness.encode, Harness.decode.
  destruct (Harness.encode_points t) as [bs|] eqn:E; [|discriminate].
  intros [= <-]. destruct (decode_encode_points t bs E) as [Hdec Hlt].
  rewrite (bytes_of_back bs Hlt). exact Hdec.
Qed.

(** ** Lines and [readline] *)

Lemma string_app_assoc (a b c : string) : (a +:+ b) +:+ c = a +:+ (b +:+ c).
Proof. induction a as [|x a IH]; simpl; [reflexivity | f_equal; exact IH]. Qed.

Lemma string_app_nil_r (a : string) : a +:+ EmptyString = a.
Proof. induction a as [|x a IH]; simpl; [reflexivity | f_equal; exact IH]. Qed.

Lemma readline_line (l rest : string) :
  contains_char Harness.newline l = false ->
  Harness.readline (Harness.line l +:+ rest) = (Harness.line l, rest).
Proof.
  induction l as [|c l IH]; intros H.
  - reflexivity.
  - cbn [contains_char] in H. apply orb_false_iff in H. destruct H as [Hc Hl].
    change (Harness.line (String c l) +:+ rest)
      with (String c (Harness.line l +:+ rest)).
    cbn [Harness.readline]. rewrite Ascii.eqb_sym, Hc, (IH Hl). reflexivity.
Qed.



(** ** What the reader consumes and prints *)

Section ReaderInvariants.

Variable message : Type.
Variable json_loads : Harness.text -> option message.


End ReaderInvariants.


(** ** The first message of a stream *)

Section FirstMessage.

Variable message : Type.
Variable json_loads : Harness.text -> option message.

Lemma skip_lines (ls : list string) (ts : list Harness.text) (tail : string)
    (console : list Harness.text) :
  Forall2 Harness.line_text ls ts ->
  Forall (fun t => json_loads t = None) ts ->
  Harness.read_rpc_response message json_loads (Harness.lines ls +:+ tail)
    console
  = Harness.read_rpc_response message json_loads tail
      (console ++ map Harness.printed ts).
Proof.
  intros Hlines. revert console.
  induction Hlines as [|l t ls ts [Hnl (t' & Hdec & Hstrip & Hne)] _ IH];
    intros console Hjson.
  - simpl. rewrite List.app_nil_r. reflexivity.
  - apply List.Forall_cons_iff in Hjson. destruct Hjson as [Ht Hts].
    cbn [Harness.lines]. rewrite string_app_assoc.
    destruct t as [|c u]; [contradiction|].
    rewrite (non_json_line_is_skipped message json_loads _ console t' c u);
      try rewrite (readline_line l _ Hnl); try assumption.
    cbn [snd]. rewrite (IH _ Hts). cbn [map].
    rewrite <- List.app_assoc. reflexivity.
Qed.

(** Lines that are text but no JSON are passed over, each printed once and
    in order, until the first line that parses: its message is returned and
    what follows it stays in the pipe. *)
Theorem first_json_line_is_returned
    (ls : list string) (ts : list Harness.text)
    (l : string) (t : Harness.text) (m : message)
    (rest : string) (console : list Harness.text) :
  Forall2 Harness.line_text ls ts ->
  Forall (fun t => json_loads t = None) ts ->
  Harness.line_text l t ->
  json_loads t = Some m ->
  Harness.read_rpc_response message json_loads
    (Harness.lines ls +:+ Harness.line l +:+ rest) console
  = (Harness.Parsed m, (rest, console ++ map Harness.printed ts)).
Proof.
  intros Hls Hts [Hnl (t' & Hdec & Hstrip & Hne)] Hm.
  rewrite (skip_lines ls ts _ console Hls Hts).
  destruct t as [|c u]; [contradiction|].
  rewrite (json_line_is_returned message json_loads _ _ t' c u m);
    try rewrite (readline_line l _ Hnl); try assumption.
  reflexivity.
Qed.

(** When no line of the stream parses, every line is printed and the reader
    returns [None] at the end of the stream. *)
Theorem stream_without_json_ends_in_none
    (ls : list string) (ts : list Harness.text)
    (console : list Harness.text) :
  Forall2 Harness.line_text ls ts ->
  Forall (fun t => json_loads t = None) ts ->
  Harness.read_rpc_response message json_loads (Harness.lines ls) console
  = (Harness.NoMoreOutput, (EmptyString, console ++ map Harness.printed ts)).
Proof.
  intros Hls Hts.
  rewrite <- (string_app_nil_r (Harness.lines ls)).
  rewrite (skip_lines ls ts _ console Hls Hts).
  apply read_at_end_of_stream.
Qed.

End FirstMessage.

Lemma line_text_of_ascii_example :
  Forall2 Harness.line_text ["starting"; "  warming up "]
          [Harness.text_of "starting"; Harness.text_of "warming up"].
Proof.
  repeat constructor;
    (eexists; split; [reflexivity | split; [reflexivity | discriminate]]).
Qed.

Lemma first_json_line_is_returned_witness :
  Harness.read_rpc_response _ Scenarios.braced
    (Harness.lines ["starting"; "  warming up "] +:+ Harness.line "{}"
       +:+ "[1]")
    []
  = (Harness.Parsed (Harness.text_of "{}"),
     ("[1]",
      [] ++ map Harness.printed
              [Harness.text_of "starting"; Harness.text_of "warming up"])).
Proof.
  apply (first_json_line_is_returned _ Scenarios.braced
           ["starting"; "  warming up "]
           [Harness.text_of "starting"; Harness.text_of "warming up"]
           "{}" (Harness.text_of "{}") (Harness.text_of "{}") "[1]" []).
  - exact line_text_of_ascii_example.
  - repeat constructor.
  - split; [reflexivity|]. eexists.
    split; [reflexivity | split; [reflexivity | discriminate]].
  - reflexivity.
Defined.

Lemma stream_without_json_ends_in_none_witness :
  Harness.read_rpc_response _ Scenarios.braced
    (Harness.lines ["starting"; "  warming up "]) []
  = (Harness.NoMoreOutput,
     (EmptyString,
      [] ++ map Harness.printed
              [Harness.text_of "starting"; Harness.text_of "warming up"])).
Proof.
  apply (stream_without_json_ends_in_none _ Scenarios.braced
           ["starting"; "  warming up "]
           [Harness.text_of "starting"; Harness.text_of "warming up"] []).
  - exact line_text_of_ascii_example.
  - repeat constructor.
Defined.

(** ** What the writer writes *)

Lemma bytes_of_app (a b : list N) :
  Harness.bytes_of (a ++ b) = Harness.bytes_of a +:+ Harness.bytes_of b.
Proof.
  unfold Harness.bytes_of. induction a as [|x a IH]; simpl; [reflexivity|].
  f_equal. exact IH.
Qed.

Lemma encode_points_app (a b : Harness.text) :
  Harness.encode_points (a ++ b)
  = match Harness.encode_points a, Harness.encode_points b with
    | Some x, Some y => Some (x ++ y)
    | _, _ => None
    end.
Proof.
  induction a as [|c a IH]; simpl.
  - destruct (Harness.encode_points b); reflexivity.
  - rewrite IH. destruct (Harness.encode_point c); [|reflexivity].
    destruct (Harness.encode_points a); [|reflexivity].
    destruct (Harness.encode_points b); [|reflexivity].
    rewrite List.app_assoc. reflexivity.
Qed.

(** [send_rpc_message] writes one unit or nothing: when it returns, the
    bytes it appended to the pipe end with a newline and decode to the text
    of [json.dumps] followed by that newline; when the text cannot be
    encoded, the pipe is left as it was. *)
Theorem send_writes_one_unit
    (message : Type) (json_dumps : message -> Harness.text)
    (stdin : string) (msg : message) :
  match Harness.send_rpc_message message json_dumps stdin msg with
  | (Harness.Written, out) =>
      exists data,
        out = stdin +:+ data
        /\ Harness.decode data = Some (json_dumps msg ++ [10%N])
        /\ last_char data = Some Harness.newline
  | (Harness.RaisesUnicodeEncodeError, out) => out = stdin
  end.
Proof.
  unfold Harness.send_rpc_message. cbv zeta.
  destruct (Harness.encode (json_dumps msg ++ [10%N])) as [data|] eqn:E;
    [|reflexivity].
  exists data. split; [reflexivity|]. split; [exact (decode_encode _ _ E)|].
  unfold Harness.encode in E. rewrite encode_points_app in E.
  destruct (Harness.encode_points (json_dumps msg)) as [bs|]; [|discriminate E].
  simpl in E. injection E as <-. rewrite bytes_of_app.
  apply (last_char_append (Harness.bytes_of bs) Harness.newline).
Qed.

(** ** A message written, then read *)

Lemma hstrip_snoc_space (t : Harness.text) (d : N) :
  Harness.is_space d = true -> Harness.rstrip (t ++ [d]) = Harness.rstrip t.
Proof.
  intros Hd. induction t as [|c u IH]; simpl.
  - rewrite Hd. reflexivity.
  - rewrite IH. reflexivity.
Qed.

Lemma hstrip_snoc_kept (u : Harness.text) (d : N) :
  Harness.is_space d = false -> Harness.rstrip (u ++ [d]) = u ++ [d].
Proof.
  intros Hd. induction u as [|c u IH]; simpl.
  - rewrite Hd. reflexivity.
  - rewrite IH. destruct (u ++ [d]) eqn:E; [|reflexivity].
    destruct u; discriminate E.
Qed.

Lemma printable_not_space (c : N) :
  (0x20 <= c <= 0x7E)%N -> c <> 0x20%N -> Harness.is_space c = false.
Proof.
  intros Hc Hne. unfold Harness.is_space.
  repeat match goal with
         | |- context [(?a <=? ?b)%N] =>
             destruct (N.leb_spec a b); try lia
         | |- context [(?a =? ?b)%N] =>
             destruct (N.eqb_spec a b); try lia
         end; reflexivity.
Qed.

Lemma json_text_strip (t : Harness.text) :
  Harness.json_text t ->
  Harness.strip (t ++ [10%N]) = t /\ exists c u, t = c :: u.
Proof.
  intros (Hascii & (c & u & Ht & Hc) & (v & d & Ht' & Hd)).
  split; [|exists c, u; exact Ht].
  assert (Hcs : Harness.is_space c = false).
  { apply printable_not_space; [|exact Hc].
    rewrite Ht in Hascii. apply List.Forall_cons_iff in Hascii. tauto. }
  assert (Hds : Harness.is_space d = false).
  { apply printable_not_space; [|exact Hd].
    rewrite Ht' in Hascii. apply Forall_app in Hascii.
    destruct Hascii as [_ Hlast]. apply List.Forall_cons_iff in Hlast. tauto. }
  unfold Harness.strip.
  assert (Hl : Harness.lstrip (t ++ [10%N]) = t ++ [10%N]).
  { rewrite Ht. simpl. rewrite Hcs. reflexivity. }
  rewrite Hl, (hstrip_snoc_space t 10 eq_refl), Ht'.
  exact (hstrip_snoc_kept v d Hds).
Qed.

Lemma encode_ascii (t : Harness.text) :
  Forall (fun c => (c < 0x80)%N) t -> Harness.encode_points t = Some t.
Proof.
  induction 1 as [|c r Hc _ IH]; simpl; [reflexivity|].
  unfold Harness.encode_point. apply N.ltb_lt in Hc. rewrite Hc, IH. reflexivity.
Qed.

Lemma printable_bytes_hold_no_newline (t : Harness.text) :
  Forall (fun c => (0x20 <= c <= 0x7E)%N) t ->
  contains_char Harness.newline (Harness.bytes_of t) = false.
Proof.
  unfold Harness.bytes_of. induction 1 as [|c r Hc _ IH]; [reflexivity|].
  cbn [map string_of_list_ascii contains_char].
  rewrite IH, orb_false_r. apply Ascii.eqb_neq. intros E.
  apply (f_equal N_of_ascii) in E. rewrite N_ascii_embedding in E by lia.
  change (N_of_ascii Harness.newline) with 10%N in E. lia.
Qed.

(** The writer and the reader frame messages alike: when [json.dumps]
    yields a text of the default kind (printable ASCII, no space at either
    end) that [json.loads] takes for [m], the bytes [send_rpc_message]
    writes are one line of the stream, and [read_rpc_response] on a pipe
    that starts with them returns [m], prints nothing, and leaves what
    follows them in the pipe. *)
Theorem sent_message_is_read_back
    (message : Type) (json_dumps : message -> Harness.text)
    (json_loads : Harness.text -> option message)
    (stdin : string) (msg m : message) :
  Harness.json_text (json_dumps msg) ->
  json_loads (json_dumps msg) = Some m ->
  exists data,
    Harness.send_rpc_message message json_dumps stdin msg
    = (Harness.Written, stdin +:+ data)
    /\ forall rest console,
         Harness.read_rpc_response message json_loads (data +:+ rest) console
         = (Harness.Parsed m, (rest, console)).
Proof.
  intros Hjson Hloads.
  destruct (json_text_strip _ Hjson) as [Hstrip (c & u & Ht)].
  destruct Hjson as (Hascii & _ & _).
  assert (Henc : Harness.encode (json_dumps msg ++ [10%N])
                 = Some (Harness.line (Harness.bytes_of (json_dumps msg)))).
  { unfold Harness.encode. rewrite encode_points_app, encode_ascii.
    - simpl. rewrite bytes_of_app. reflexivity.
    - eapply List.Forall_impl; [|exact Hascii]. simpl. intros a Ha. lia. }
  exists (Harness.line (Harness.bytes_of (json_dumps msg))). split.
  - unfold Harness.send_rpc_message. cbv zeta. rewrite Henc. reflexivity.
  - intros rest console.
    rewrite (json_line_is_returned message json_loads _ console
               (json_dumps msg ++ [10%N]) c u m);
      try rewrite (readline_line _ rest
                     (printable_bytes_hold_no_newline _ Hascii)).
    + reflexivity.
    + exact (decode_encode _ _ Henc).
    + rewrite Hstrip. exact Ht.
    + rewrite <- Ht. exact Hloads.
Qed.

Lemma sent_message_is_read_back_witness :
  exists data,
    Harness.send_rpc_message _ Scenarios.dumped "" (Harness.text_of "{}")
    = (Harness.Written, "" +:+ data)
    /\ forall rest console,
         Harness.read_rpc_response _ Scenarios.braced (data +:+ rest) console
         = (Harness.Parsed (Harness.text_of "{}"), (rest, console)).
Proof.
  apply (sent_message_is_read_back _ Scenarios.dumped Scenarios.braced ""
           (Harness.text_of "{}") (Harness.text_of "{}")).
  - split; [repeat constructor; cbv; discriminate|]. split.
    + exists 123%N, [125%N]. split; [reflexivity | discriminate].
    + exists [123%N], 125%N. split; [reflexivity | discriminate].
  - reflexivity.
Defined.

(** ** A line of white space *)

Lemma hstrip_all_space (t : Harness.text) :
  Forall (fun c => Harness.is_space c = true) t -> Harness.strip t = [].
Proof.
  unfold Harness.strip. induction 1 as [|c r Hc _ IH]; simpl; [reflexivity|].
  rewrite Hc. exact IH.
Qed.

(** A line made of white space alone, of whatever kind and length, ends the
    read as the end of the stream does: [None] is returned, nothing is
    printed, and what follows the line stays in the pipe. *)
Theorem white_space_line_ends_the_read
    (message : Type) (json_loads : Harness.text -> option message)
    (l rest : string) (t : Harness.text) (console : list Harness.text) :
  contains_char Harness.newline l = false ->
  Harness.decode (Harness.line l) = Some t ->
  Forall (fun c => Harness.is_space c = true) t ->
  Harness.read_rpc_response message json_loads (Harness.line l +:+ rest) console
  = (Harness.NoMoreOutput, (rest, console)).
Proof.
  intros Hnl Hdec Hsp.
  rewrite (blank_line_is_taken_for_the_end message json_loads _ console t);
    try rewrite (readline_line l rest Hnl).
  - reflexivity.
  - exact Hdec.
  - exact (hstrip_all_space t Hsp).
Qed.

Lemma white_space_line_ends_the_read_witness :
  Harness.read_rpc_response _ Scenarios.braced
    (Harness.line (String (ascii_of_nat 9) "  ") +:+ Harness.line "{}") []
  = (Harness.NoMoreOutput, (Harness.line "{}", [])).
Proof.
  apply (white_space_line_ends_the_read _ Scenarios.braced
           (String (ascii_of_nat 9) "  ") (Harness.line "{}")
           [9; 32; 32; 10]%N []).
  - reflexivity.
  - reflexivity.
  - repeat constructor.
Defined.
